(** * computeSales.py: a shallow embedding of the sale costing program

    The program loads a price catalogue and a sales record (two JSON
    documents), folds [compute_sale_cost] over the sales, and writes a
    report with [write_results].  Python values reaching the code are
    JSON values ([jvalue]); Python exceptions are the [Raise] branch of
    the result monad [res]; floating-point arithmetic is kept abstract
    (section variables), so every theorem holds for any implementation of
    binary64 floats. *)

From Stdlib Require Import ZArith List String Ascii Bool Lia QArith Qround Qabs.
Import ListNotations.
Open Scope nat_scope.
Open Scope string_scope.
Set Warnings "-register-all".

(** Python exceptions that the code can raise. *)
Inductive exc :=
| AttributeError
| TypeError
| ValueError
| OverflowError
| KeyError
| IndexError
(** Raised by [open] or [file.write]: PermissionError, IsADirectoryError,
    a full disk, ... *)
| OSError
(** Raised by reading a file whose bytes are not UTF-8. *)
| UnicodeDecodeError.

(** A Python computation that returns a value or raises. *)
Inductive res (A : Type) :=
| Ok (a : A)
| Raise (e : exc).
Arguments Ok {A} a.
Arguments Raise {A} e.

Definition res_bind {A B} (m : res A) (k : A -> res B) : res B :=
  match m with
  | Ok a => k a
  | Raise e => Raise e
  end.

Notation "x <- m ;; k" := (res_bind m (fun x => k))
  (at level 61, m at next level, right associativity).
Notation "' p <- m ;; k" := (res_bind m (fun x => match x with p => k end))
  (at level 61, p pattern, m at next level, right associativity).

(** [for x in xs: acc = f(acc, x)], where the body may raise. *)
Fixpoint fold_res {A B} (f : A -> B -> res A) (acc : A) (xs : list B) : res A :=
  match xs with
  | [] => Ok acc
  | x :: xs' => a <- f acc x ;; fold_res f a xs'
  end.

(** How a run of the program ends: normally, by [sys.exit(code)], or by
    an uncaught exception. *)
Inductive outcome (A : Type) :=
| Done (a : A)
| Exit (code : Z)
| Crash (e : exc).
Arguments Done {A} a.
Arguments Exit {A} code.
Arguments Crash {A} e.

Definition nl : string := String (ascii_of_nat 10) EmptyString.

(** Decimal rendering of a Python int ([str(z)]). *)
Fixpoint dec_digits (fuel : nat) (n : Z) (acc : string) : string :=
  match fuel with
  | O => acc
  | S fuel' =>
      let acc' := String (ascii_of_nat (48 + Z.to_nat (n mod 10))) acc in
      if (n / 10 =? 0)%Z then acc' else dec_digits fuel' (n / 10) acc'
  end.

Definition string_of_Z (z : Z) : string :=
  let digits := dec_digits (S (Z.to_nat (Z.log2 (Z.abs z)))) (Z.abs z) "" in
  if (z <? 0)%Z then "-" ++ digits else digits.

(** Python floats: an abstract binary64 type and its operations. *)
Class FloatOps (float : Type) := {
  fadd : float -> float -> float;
  fmul : float -> float -> float;
  fsub : float -> float -> float;
  (** [bool(f)]: false exactly for 0.0 and -0.0. *)
  fnonzero : float -> bool;
  (** int -> float conversion; [None] when the int is too large
      (Python raises OverflowError). *)
  float_of_Z : Z -> option float;
  (** [float(s)] on a str; [None] when Python raises ValueError. *)
  float_of_string : string -> option float;
  (** [str(f)] and [format(f, '.<n>f')]. *)
  float_str : float -> string;
  float_fixed : nat -> float -> string
}.

Section ComputeSales.

Context {float : Type} `{FloatOps float}.

(** A parsed JSON value, as [json.load] returns it.  Objects are dicts,
    given by their (key, value) entries. *)
Inductive jvalue :=
| JNull
| JBool (b : bool)
| JInt (z : Z)
| JFloat (f : float)
| JStr (s : string)
| JList (l : list jvalue)
| JObj (kv : list (string * jvalue)).

(** Reading a file and [json.load] on its content: FileNotFoundError,
    json.JSONDecodeError, success, or another exception of [open], of the
    read or of [json.load] (an OSError such as PermissionError or
    IsADirectoryError, a UnicodeDecodeError). *)
Inductive load_result :=
| FileNotFound
| JSONDecodeError (msg : string)
| Loaded (v : jvalue)
| LoadRaises (e : exc).

(** [open(name, 'w')] then [file.write(text)]: both succeed, [open]
    raises (nothing is written), or the write raises after [open] has
    created or emptied the file. *)
Inductive write_outcome :=
| Written
| OpenFailed (e : exc)
| WriteFailed (e : exc).

(** The parts of the Python runtime the development leaves abstract. *)
Class PyEnv := {
  (** [str(v)] of a list or a dict (its repr). *)
  container_str : jvalue -> string;
  (** The [in] operator and subscription on a catalogue that is not a
      dict (a JSON list, string or number). *)
  nondict_contains : jvalue -> jvalue -> res bool;
  nondict_getitem : jvalue -> jvalue -> res jvalue;
  (** The file system and the JSON parser. *)
  read_json : string -> load_result;
  write_text : string -> string -> write_outcome
}.

Context `{PyEnv}.

(** A Python number: the accumulators start as the int [0] and become
    floats once a float is added. *)
Inductive pnum :=
| PInt (z : Z)
| PFloat (f : float).

(** ** Python built-ins used by the code *)

Fixpoint dict_get (kv : list (string * jvalue)) (k : string) : option jvalue :=
  match kv with
  | [] => None
  | (k', v) :: kv' => if String.eqb k k' then Some v else dict_get kv' k
  end.

(** [obj.get(key, default)]: only dicts have a [get] method. *)
Definition py_get (obj : jvalue) (key : string) (default : jvalue) : res jvalue :=
  match obj with
  | JObj kv =>
      match dict_get kv key with
      | Some v => Ok v
      | None => Ok default
      end
  | _ => Raise AttributeError
  end.

(** [bool(v)]. *)
Definition truthy (v : jvalue) : bool :=
  match v with
  | JNull => false
  | JBool b => b
  | JInt z => negb (z =? 0)%Z
  | JFloat f => fnonzero f
  | JStr s => negb (String.eqb s "")
  | JList l => match l with [] => false | _ => true end
  | JObj kv => match kv with [] => false | _ => true end
  end.

(** [iter(v)]: lists yield their elements, strings their characters,
    dicts their keys; anything else is not iterable. *)
Definition py_iter (v : jvalue) : res (list jvalue) :=
  match v with
  | JList l => Ok l
  | JStr s => Ok (map (fun c => JStr (String c EmptyString)) (list_ascii_of_string s))
  | JObj kv => Ok (map (fun p => JStr (fst p)) kv)
  | _ => Raise TypeError
  end.

Definition hashable (v : jvalue) : bool :=
  match v with
  | JList _ | JObj _ => false
  | _ => true
  end.

(** [key in cat].  The keys of a JSON dict are strings, and a hashable
    non-string never equals a string. *)
Definition py_contains (key cat : jvalue) : res bool :=
  match cat with
  | JObj kv =>
      if hashable key then
        match key with
        | JStr s => Ok (match dict_get kv s with Some _ => true | None => false end)
        | _ => Ok false
        end
      else Raise TypeError
  | _ => nondict_contains key cat
  end.

(** [cat[key]]. *)
Definition py_getitem (cat key : jvalue) : res jvalue :=
  match cat with
  | JObj kv =>
      if hashable key then
        match key with
        | JStr s => match dict_get kv s with Some v => Ok v | None => Raise KeyError end
        | _ => Raise KeyError
        end
      else Raise TypeError
  | _ => nondict_getitem cat key
  end.

Definition int_to_float (z : Z) : res float :=
  match float_of_Z z with
  | Some f => Ok f
  | None => Raise OverflowError
  end.

(** [float(v)]. *)
Definition py_float (v : jvalue) : res float :=
  match v with
  | JInt z => int_to_float z
  | JBool b => int_to_float (if b then 1 else 0)%Z
  | JFloat f => Ok f
  | JStr s =>
      match float_of_string s with
      | Some f => Ok f
      | None => Raise ValueError
      end
  | JNull | JList _ | JObj _ => Raise TypeError
  end.

(** [p * q] for a float [p]. *)
Definition py_mul_float (p : float) (q : jvalue) : res float :=
  match q with
  | JInt z => f <- int_to_float z ;; Ok (fmul p f)
  | JBool b => f <- int_to_float (if b then 1 else 0)%Z ;; Ok (fmul p f)
  | JFloat g => Ok (fmul p g)
  | _ => Raise TypeError
  end.

(** [a + b] on numbers. *)
Definition py_add (a b : pnum) : res pnum :=
  match a, b with
  | PInt x, PInt y => Ok (PInt (x + y))
  | PInt x, PFloat g => f <- int_to_float x ;; Ok (PFloat (fadd f g))
  | PFloat f, PInt y => g <- int_to_float y ;; Ok (PFloat (fadd f g))
  | PFloat f, PFloat g => Ok (PFloat (fadd f g))
  end.

(** [str(v)], as used by the f-strings. *)
Definition py_str (v : jvalue) : string :=
  match v with
  | JNull => "None"
  | JBool true => "True"
  | JBool false => "False"
  | JInt z => string_of_Z z
  | JFloat f => float_str f
  | JStr s => s
  | JList _ | JObj _ => container_str v
  end.

(** The exceptions caught by [except (ValueError, TypeError)]. *)
Definition caught (e : exc) : bool :=
  match e with
  | ValueError | TypeError => true
  | _ => false
  end.

(** ** compute_sale_cost (lines 38-81) *)

Definition fmt_invalid_item (sale_id : string) : string :=
  "Invalid item in sale " ++ sale_id ++ ": " ++ "Missing product name or quantity".

Definition fmt_not_found (product_name : string) : string :=
  "Product '" ++ product_name ++ "' not found in price catalogue".

Definition fmt_invalid_price (product_name : string) : string :=
  "Invalid price for product '" ++ product_name ++ "' " ++ "in price catalogue".

Definition msg_invalid_item (sale_id : jvalue) : string := fmt_invalid_item (py_str sale_id).
Definition msg_not_found (product_name : jvalue) : string := fmt_not_found (py_str product_name).
Definition msg_invalid_price (product_name : jvalue) : string :=
  fmt_invalid_price (py_str product_name).

(** The [try] block of lines 72-74: the new [total_cost]. *)
Definition price_try (total_cost : pnum) (price_catalogue product_name quantity : jvalue)
  : res pnum :=
  raw <- py_getitem price_catalogue product_name ;;
  price <- py_float raw ;;
  x <- py_mul_float price quantity ;;
  py_add total_cost (PFloat x).

(** One iteration of the loop of lines 55-79, on the state
    [(total_cost, errors)]. *)
Definition sale_item_step (sale price_catalogue : jvalue)
  (st : pnum * list string) (item : jvalue) : res (pnum * list string) :=
  let '(total_cost, errors) := st in
  product_name <- py_get item "product" JNull ;;
  quantity <- py_get item "quantity" (JInt 0) ;;
  if negb (truthy product_name) || negb (truthy quantity) then
    sale_id <- py_get sale "id" (JStr "Unknown") ;;
    Ok (total_cost, (errors ++ [msg_invalid_item sale_id])%list)
  else
    is_in <- py_contains product_name price_catalogue ;;
    if negb is_in then Ok (total_cost, (errors ++ [msg_not_found product_name])%list)
    else
      match price_try total_cost price_catalogue product_name quantity with
      | Ok t => Ok (t, errors)
      | Raise e =>
          if caught e then Ok (total_cost, (errors ++ [msg_invalid_price product_name])%list)
          else Raise e
      end.

Definition compute_sale_cost (sale price_catalogue : jvalue) : res (pnum * list string) :=
  items <- py_get sale "items" (JList []) ;;
  its <- py_iter items ;;
  fold_res (sale_item_step sale price_catalogue) (PInt 0, []) its.

(** The loop of main (lines 129-139). *)
Definition sales_step (price_catalogue : jvalue) (st : pnum * list string) (sale : jvalue)
  : res (pnum * list string) :=
  let '(total_cost, all_errors) := st in
  '(sale_cost, errors) <- compute_sale_cost sale price_catalogue ;;
  t <- py_add total_cost sale_cost ;;
  Ok (t, (all_errors ++ errors)%list).

Definition sales_loop (price_catalogue : jvalue) (sales : list jvalue) : res (pnum * list string) :=
  fold_res (sales_step price_catalogue) (PInt 0, []) sales.

(** ** The spec's total (Section 8): the sum over sales, and over the
    line items of each sale, of [price(product) * quantity], computed with
    Python's [float()], [*] and [+].  This follows the spec's words; it is
    compared with [sales_loop] from the source. *)
Definition spec_line_value (price_catalogue item : jvalue) : res float :=
  product <- py_get item "product" JNull ;;
  quantity <- py_get item "quantity" (JInt 0) ;;
  raw <- py_getitem price_catalogue product ;;
  price <- py_float raw ;;
  py_mul_float price quantity.

Definition spec_sale_total (price_catalogue sale : jvalue) : res pnum :=
  items <- py_get sale "items" (JList []) ;;
  its <- py_iter items ;;
  fold_res (fun acc item => x <- spec_line_value price_catalogue item ;; py_add acc (PFloat x))
    (PInt 0) its.

Definition spec_total (price_catalogue : jvalue) (sales : list jvalue) : res pnum :=
  fold_res (fun acc sale => t <- spec_sale_total price_catalogue sale ;; py_add acc t)
    (PInt 0) sales.

(** A valid line item (spec: "no invalid items"): a non-empty product
    present in the (dict) catalogue, a truthy numeric quantity, and a
    catalogue price that [float()] accepts. *)
Definition valid_item (price_catalogue item : jvalue) : Prop :=
  exists ikv ckv s q raw p,
    item = JObj ikv /\ price_catalogue = JObj ckv /\
    py_get item "product" JNull = Ok (JStr s) /\ s <> "" /\
    py_get item "quantity" (JInt 0) = Ok q /\
    ((exists z, q = JInt z /\ z <> 0%Z) \/ (exists f, q = JFloat f /\ fnonzero f = true)) /\
    dict_get ckv s = Some raw /\ py_float raw = Ok p.

Definition valid_sale (price_catalogue sale : jvalue) : Prop :=
  exists items, py_get sale "items" (JList []) = Ok (JList items) /\
    Forall (valid_item price_catalogue) items.

(** A line item of the shape the spec's data model describes: a dict
    whose product, when present, is not a list or a dict. *)
Definition shaped_item (item : jvalue) : Prop :=
  exists ikv, item = JObj ikv /\
    hashable (match dict_get ikv "product" with Some v => v | None => JNull end) = true.

Definition shaped_sale (sale : jvalue) : Prop :=
  exists items, py_get sale "items" (JList []) = Ok (JList items) /\ Forall shaped_item items.

Definition res_map {A B} (f : A -> B) (r : res A) : res B :=
  match r with Ok a => Ok (f a) | Raise e => Raise e end.

(** ** The program: load_json_file, write_results and main *)

(** Observable effects: [print(s)], writing a file, a file emptied by
    [open(name, 'w')] whose write then failed (how much of the text
    reached it is not known), and a ghost event marking each call of the
    costing engine. *)
Inductive event :=
| Print (s : string)
| WriteFile (name contents : string)
| FileTruncated (name : string)
| CostCall (sale : jvalue).

(** A program step: the effects it performs, then how it ends. *)
Definition prog (A : Type) : Type := (list event * outcome A)%type.

Definition prog_ret {A} (a : A) : prog A := ([], Done a).

Definition prog_bind {A B} (m : prog A) (k : A -> prog B) : prog B :=
  match m with
  | (tr, Done a) => let '(tr', o) := k a in ((tr ++ tr')%list, o)
  | (tr, Exit c) => (tr, Exit c)
  | (tr, Crash e) => (tr, Crash e)
  end.

Definition of_res {A} (r : res A) : prog A :=
  match r with
  | Ok a => ([], Done a)
  | Raise e => ([], Crash e)
  end.

Fixpoint prog_fold {A B} (f : A -> B -> prog A) (acc : A) (xs : list B) : prog A :=
  match xs with
  | [] => prog_ret acc
  | x :: xs' => prog_bind (f acc x) (fun a => prog_fold f a xs')
  end.

(** load_json_file (lines 14-35). *)
Definition load_json_file (filename : string) : prog jvalue :=
  match read_json filename with
  | Loaded v => prog_ret v
  | FileNotFound => ([Print ("Error: File '" ++ filename ++ "' not found")], Exit 1%Z)
  | JSONDecodeError m =>
      ([Print ("Error: Invalid JSON in file '" ++ filename ++ "': " ++ m)], Exit 1%Z)
  | LoadRaises e => ([], Crash e)
  end.

(** [format(v, '.<n>f')] on a number: an int is converted to float. *)
Definition format_fixed (n : nat) (v : pnum) : res string :=
  match v with
  | PInt z => f <- int_to_float z ;; Ok (float_fixed n f)
  | PFloat f => Ok (float_fixed n f)
  end.

(** The list [results] built by write_results (lines 95-108). *)
Definition results_lines (total_str time_str : string) (errors : list string) : list string :=
  match errors with
  | _ :: _ =>
      app ["=== Sales Computation Results ===";
       "Total Cost: $" ++ total_str;
       "Execution Time: " ++ time_str ++ " seconds";
       nl ++ "Errors encountered during execution:"] errors
  | [] =>
      ["=== Sales Computation Results ===";
       "Total Cost: $" ++ total_str;
       "Execution Time: " ++ time_str ++ " seconds";
       nl ++ "No errors encountered during execution."]
  end.

(** write_results (lines 84-113). *)
Definition write_results (total_cost : pnum) (execution_time : float) (errors : list string)
  : prog unit :=
  prog_bind (of_res (format_fixed 2 total_cost)) (fun total_str =>
  let results := results_lines total_str (float_fixed 3 execution_time) errors in
  match write_text "SalesResults.txt" (String.concat nl results) with
  | Written =>
      ([Print (String.concat nl results);
        WriteFile "SalesResults.txt" (String.concat nl results)], Done tt)
  | OpenFailed e => ([Print (String.concat nl results)], Crash e)
  | WriteFailed e =>
      ([Print (String.concat nl results); FileTruncated "SalesResults.txt"], Crash e)
  end).

(** The loop of main, with the ghost event of each engine call. *)
Definition main_step (price_catalogue : jvalue) (st : pnum * list string) (sale : jvalue)
  : prog (pnum * list string) :=
  let '(total_cost, all_errors) := st in
  prog_bind ([CostCall sale], Done tt) (fun _ =>
  prog_bind (of_res (compute_sale_cost sale price_catalogue)) (fun '(sale_cost, errors) =>
  prog_bind (of_res (py_add total_cost sale_cost)) (fun t =>
  prog_ret (t, (all_errors ++ errors)%list)))).

(** main (lines 116-143); [argv] is [sys.argv], [start_time] and
    [end_time] the two readings of [time.time()]. *)
Definition main (argv : list string) (start_time end_time : float) : prog unit :=
  if negb (Nat.eqb (List.length argv) 3) then
    ([Print ("Usage: python computeSales.py " ++ "priceCatalogue.json salesRecord.json")],
     Exit 1%Z)
  else
    prog_bind (load_json_file (nth 1 argv "")) (fun price_catalogue =>
    prog_bind (load_json_file (nth 2 argv "")) (fun sales_record =>
    match sales_record with
    | JList sales =>
        prog_bind (prog_fold (main_step price_catalogue) (PInt 0, []) sales)
          (fun '(total_cost, all_errors) =>
           write_results total_cost (fsub end_time start_time) all_errors)
    | _ => ([Print "Error: Sales record must be a list of sales"], Exit 1%Z)
    end)).

(** ** Reading the report back

    [text.split('\n')]: how a reader of the printed report or of
    SalesResults.txt sees its lines. *)
Definition is_nl (c : ascii) : bool := Ascii.eqb c (ascii_of_nat 10).

Fixpoint has_nl (s : string) : bool :=
  match s with
  | EmptyString => false
  | String c s' => is_nl c || has_nl s'
  end.

Fixpoint split_newline (s : string) : list string :=
  match s with
  | EmptyString => [EmptyString]
  | String c s' =>
      if is_nl c then EmptyString :: split_newline s'
      else match split_newline s' with
           | l :: ls => String c l :: ls
           | [] => [String c EmptyString]
           end
  end.

(** The three messages [compute_sale_cost] appends to [errors]
    (lines 60-63, 67-69 and 76-79). *)
Definition reported_error (m : string) : Prop :=
  exists s, m = fmt_invalid_item s \/ m = fmt_not_found s \/ m = fmt_invalid_price s.

End ComputeSales.

Arguments JNull {float}.
Arguments JBool {float} b.
Arguments JInt {float} z.
Arguments JFloat {float} f.
Arguments JStr {float} s.
Arguments JList {float} l.
Arguments JObj {float} kv.

(** ** compute_sale_cost over a Python heap

    The same function, with the objects it receives and creates living in
    a heap: the sale, its items and the catalogue are dicts and lists
    referenced by location, [errors] and the default [[]] of
    [sale.get('items', [])] are fresh lists, and [errors.append] updates
    the heap in place.  The world also holds standard output and the
    files, so that an effect of the function on them would show. *)
Module Heap.
Section HeapModel.

Context {float : Type} `{FloatOps float}.

Inductive pyval :=
| VNone
| VBool (b : bool)
| VInt (z : Z)
| VFloat (f : float)
| VStr (s : string)
| VRef (l : nat).

Inductive pyobj :=
| OList (xs : list pyval)
| ODict (kv : list (string * pyval)).

Definition heap := nat -> option pyobj.

Record world := mk_world {
  objs : heap;
  next_loc : nat;
  stdout : list string;
  files : list (string * string)
}.

(** Reading parts of the runtime left abstract: [str()] of a container
    and [in] / subscription on a catalogue that is not a dict.  They read
    the heap and cannot write it. *)
Variable ref_str : heap -> pyval -> string.
Variable nondict_contains_h : heap -> pyval -> pyval -> res bool.
Variable nondict_getitem_h : heap -> pyval -> pyval -> res pyval.

Definition M (A : Type) : Type := world -> res A * world.

Definition mret {A} (a : A) : M A := fun w => (Ok a, w).
Definition mraise {A} (e : exc) : M A := fun w => (Raise e, w).
Definition mbind {A B} (m : M A) (k : A -> M B) : M B :=
  fun w => match m w with
           | (Ok a, w') => k a w'
           | (Raise e, w') => (Raise e, w')
           end.
(** [try: m except ...]: the exception becomes a value. *)
Definition mtry {A} (m : M A) : M (res A) :=
  fun w => let '(r, w') := m w in (Ok r, w').
Definition of_res {A} (r : res A) : M A :=
  match r with Ok a => mret a | Raise e => mraise e end.

Notation "x <-- m ;; k" := (mbind m (fun x => k))
  (at level 61, m at next level, right associativity).

Definition upd (h : heap) (l : nat) (o : pyobj) : heap :=
  fun l' => if Nat.eqb l' l then Some o else h l'.

Definition alloc (o : pyobj) : M nat :=
  fun w => (Ok (next_loc w),
            mk_world (upd (objs w) (next_loc w) o) (S (next_loc w)) (stdout w) (files w)).

Definition load (l : nat) : M pyobj :=
  fun w => match objs w l with
           | Some o => (Ok o, w)
           | None => (Raise TypeError, w)
           end.

Definition store (l : nat) (o : pyobj) : M unit :=
  fun w => (Ok tt, mk_world (upd (objs w) l o) (next_loc w) (stdout w) (files w)).

Definition read_heap : M heap := fun w => (Ok (objs w), w).

Fixpoint mfold {A B} (f : A -> B -> M A) (acc : A) (xs : list B) : M A :=
  match xs with
  | [] => mret acc
  | x :: xs' => a <-- f acc x ;; mfold f a xs'
  end.

Fixpoint lookup (kv : list (string * pyval)) (k : string) : option pyval :=
  match kv with
  | [] => None
  | (k', v) :: kv' => if String.eqb k k' then Some v else lookup kv' k
  end.

Definition get (obj : pyval) (key : string) (default : pyval) : M pyval :=
  match obj with
  | VRef l =>
      o <-- load l ;;
      match o with
      | ODict kv => mret (match lookup kv key with Some v => v | None => default end)
      | OList _ => mraise AttributeError
      end
  | _ => mraise AttributeError
  end.

Definition truthy (v : pyval) : M bool :=
  match v with
  | VNone => mret false
  | VBool b => mret b
  | VInt z => mret (negb (z =? 0)%Z)
  | VFloat f => mret (fnonzero f)
  | VStr s => mret (negb (String.eqb s ""))
  | VRef l =>
      o <-- load l ;;
      match o with
      | OList xs => mret (match xs with [] => false | _ => true end)
      | ODict kv => mret (match kv with [] => false | _ => true end)
      end
  end.

Definition iter (v : pyval) : M (list pyval) :=
  match v with
  | VRef l =>
      o <-- load l ;;
      match o with
      | OList xs => mret xs
      | ODict kv => mret (map (fun p => VStr (fst p)) kv)
      end
  | VStr s => mret (map (fun c => VStr (String c EmptyString)) (list_ascii_of_string s))
  | _ => mraise TypeError
  end.

Definition str (v : pyval) : M string :=
  match v with
  | VNone => mret "None"
  | VBool true => mret "True"
  | VBool false => mret "False"
  | VInt z => mret (string_of_Z z)
  | VFloat f => mret (float_str f)
  | VStr s => mret s
  | VRef _ => h <-- read_heap ;; mret (ref_str h v)
  end.

Definition contains (key cat : pyval) : M bool :=
  h <-- read_heap ;;
  match cat with
  | VRef l =>
      o <-- load l ;;
      match o with
      | ODict kv =>
          match key with
          | VRef _ => mraise TypeError
          | VStr s => mret (match lookup kv s with Some _ => true | None => false end)
          | _ => mret false
          end
      | OList _ => of_res (nondict_contains_h h key cat)
      end
  | _ => of_res (nondict_contains_h h key cat)
  end.

Definition getitem (cat key : pyval) : M pyval :=
  h <-- read_heap ;;
  match cat with
  | VRef l =>
      o <-- load l ;;
      match o with
      | ODict kv =>
          match key with
          | VRef _ => mraise TypeError
          | VStr s => match lookup kv s with Some v => mret v | None => mraise KeyError end
          | _ => mraise KeyError
          end
      | OList _ => of_res (nondict_getitem_h h cat key)
      end
  | _ => of_res (nondict_getitem_h h cat key)
  end.

Definition to_float (v : pyval) : res float :=
  match v with
  | VInt z => int_to_float z
  | VBool b => int_to_float (if b then 1 else 0)%Z
  | VFloat f => Ok f
  | VStr s => match float_of_string s with Some f => Ok f | None => Raise ValueError end
  | VNone | VRef _ => Raise TypeError
  end.

Definition mul_float (p : float) (q : pyval) : res float :=
  match q with
  | VInt z => f <- int_to_float z ;; Ok (fmul p f)
  | VBool b => f <- int_to_float (if b then 1 else 0)%Z ;; Ok (fmul p f)
  | VFloat g => Ok (fmul p g)
  | _ => Raise TypeError
  end.

Definition append (l : nat) (v : pyval) : M unit :=
  o <-- load l ;;
  match o with
  | OList xs => store l (OList (xs ++ [v]))
  | ODict _ => mraise AttributeError
  end.

(** One iteration of the loop of lines 55-79; [errors] is the location
    of the list [errors]. *)
Definition item_step (sale price_catalogue : pyval) (errors : nat)
  (total_cost : pnum) (item : pyval) : M pnum :=
  product_name <-- get item "product" VNone ;;
  quantity <-- get item "quantity" (VInt 0) ;;
  tp <-- truthy product_name ;;
  bad <-- (if tp then (tq <-- truthy quantity ;; mret (negb tq)) else mret true) ;;
  if bad then
    sale_id <-- get sale "id" (VStr "Unknown") ;;
    sid <-- str sale_id ;;
    _ <-- append errors (VStr (fmt_invalid_item sid)) ;;
    mret total_cost
  else
    is_in <-- contains product_name price_catalogue ;;
    if negb is_in then
      p <-- str product_name ;;
      _ <-- append errors (VStr (fmt_not_found p)) ;;
      mret total_cost
    else
      r <-- mtry (raw <-- getitem price_catalogue product_name ;;
                  price <-- of_res (to_float raw) ;;
                  x <-- of_res (mul_float price quantity) ;;
                  of_res (py_add total_cost (PFloat x))) ;;
      match r with
      | Ok t => mret t
      | Raise e =>
          if caught e then
            p <-- str product_name ;;
            _ <-- append errors (VStr (fmt_invalid_price p)) ;;
            mret total_cost
          else mraise e
      end.

(** compute_sale_cost (lines 38-81): returns [total_cost] and a reference
    to the list [errors]. *)
Definition compute_sale_cost (sale price_catalogue : pyval) : M (pnum * pyval) :=
  errors <-- alloc (OList []) ;;
  default_items <-- alloc (OList []) ;;
  items <-- get sale "items" (VRef default_items) ;;
  its <-- iter items ;;
  total_cost <-- mfold (item_step sale price_catalogue errors) (PInt 0) its ;;
  mret (total_cost, VRef errors).

(** What a computation may change: the world [w'] agrees with [w] on
    standard output, on the files, and on every heap cell below [n]; and
    the allocation pointer only grows. *)
Definition frame (n : nat) (w w' : world) : Prop :=
  stdout w' = stdout w /\ files w' = files w /\ next_loc w <= next_loc w' /\
  (forall l, l < n -> objs w' l = objs w l).

Definition preserves {A} (n : nat) (m : M A) : Prop :=
  forall w, n <= next_loc w -> frame n w (snd (m w)).

(** The list at location [l] holds only strings. *)
Definition str_list_at (l : nat) (w : world) : Prop :=
  exists xs, objs w l = Some (OList xs) /\ Forall (fun x => exists s, x = VStr s) xs.

(** A computation that keeps a property of the world. *)
Definition keeps {A} (P : world -> Prop) (m : M A) : Prop :=
  forall w, P w -> P (snd (m w)).

End HeapModel.
End Heap.

(** ** A concrete instance: rationals in place of floats *)
Module QInst.

Definition q_of_Z (z : Z) : option Q :=
  if (Z.abs z <? 2 ^ 1024)%Z then Some (inject_Z z) else None.

Definition q_of_string (s : string) : option Q :=
  if String.eqb s "1.50" then Some (3 # 2)
  else if String.eqb s "2" then Some (2 # 1)
  else None.

Definition q_fixed (n : nat) (q : Q) : string :=
  let scale := (10 ^ Z.of_nat n)%Z in
  let m := Qfloor (Qabs q * inject_Z scale + (1 # 2)) in
  let frac := string_of_Z (scale + m mod scale) in
  (if Qlt_le_dec q 0 then "-" else "") ++ string_of_Z (m / scale) ++ "."
    ++ substring 1 n frac.

#[export] Instance FloatOps_Q : FloatOps Q := {
  fadd := Qplus;
  fmul := Qmult;
  fsub := Qminus;
  fnonzero q := negb (Qeq_bool q 0);
  float_of_Z := q_of_Z;
  float_of_string := q_of_string;
  float_str := q_fixed 1;
  float_fixed := q_fixed
}.

#[export] Instance PyEnv_Q : PyEnv (float := Q) := {
  container_str _ := "<container>";
  nondict_contains _ _ := Raise TypeError;
  nondict_getitem _ _ := Raise TypeError;
  read_json _ := FileNotFound;
  write_text _ _ := Written
}.

(** A runtime whose file system holds the given documents. *)
Definition PyEnv_files (files : string -> load_result (float := Q)) : PyEnv (float := Q) := {|
  container_str _ := "<container>";
  nondict_contains _ _ := Raise TypeError;
  nondict_getitem _ _ := Raise TypeError;
  read_json := files;
  write_text _ _ := Written
|}.

(** Scenario A of the spec: [{"Apple": "1.50", "Bread": 3}]. *)
Definition catalogue_A_entries : list (string * jvalue (float := Q)) :=
  [("Apple", JStr "1.50"); ("Bread", JInt 3)].

Definition catalogue_A : jvalue (float := Q) := JObj catalogue_A_entries.

Definition item (product : string) (quantity : jvalue (float := Q)) : jvalue (float := Q) :=
  JObj [("product", JStr product); ("quantity", quantity)].

Definition sale_A : jvalue (float := Q) :=
  JObj [("id", JStr "S1"); ("items", JList [item "Apple" (JInt 4); item "Bread" (JInt 1)])].

(** A sale whose second line item is not a dict. *)
Definition sale_bad_item : jvalue (float := Q) :=
  JObj [("id", JStr "S2"); ("items", JList [item "Apple" (JInt 1); JInt 5])].

(** A sale with two line items naming a product the catalogue lacks. *)
Definition sale_milk_twice : jvalue (float := Q) :=
  JObj [("id", JStr "S3"); ("items", JList [item "Milk" (JInt 2); item "Milk" (JInt 2)])].

(** A sale with a line item missing its quantity, and no id. *)
Definition sale_no_quantity : jvalue (float := Q) :=
  JObj [("items", JList [JObj [("product", JStr "Apple")]; item "Bread" (JInt 2)])].

(** A sale whose quantity is a numeric string. *)
Definition sale_string_quantity : jvalue (float := Q) :=
  JObj [("items", JList [item "Bread" (JStr "2")])].

Definition argv_run : list string := ["computeSales.py"; "catalogue.json"; "sales.json"].

Definition files_run (sales : jvalue (float := Q)) (name : string) : load_result (float := Q) :=
  if String.eqb name "catalogue.json" then Loaded catalogue_A
  else if String.eqb name "sales.json" then Loaded sales
  else FileNotFound.

(** A sale with an unknown product and a priced one, in the heap: the
    sale at 0, its items list at 1, the two line items at 2 and 3, the
    catalogue at 4; location 5 is the first free one. *)
Definition heap_A : Heap.heap (float := Q) := fun l =>
  match l with
  | 0 => Some (Heap.ODict [("id", Heap.VStr "S4"); ("items", Heap.VRef 1)])
  | 1 => Some (Heap.OList [Heap.VRef 2; Heap.VRef 3])
  | 2 => Some (Heap.ODict [("product", Heap.VStr "Milk"); ("quantity", Heap.VInt 2)])
  | 3 => Some (Heap.ODict [("product", Heap.VStr "Apple"); ("quantity", Heap.VInt 4)])
  | 4 => Some (Heap.ODict [("Apple", Heap.VStr "1.50")])
  | _ => None
  end.

Definition world_A : Heap.world (float := Q) := Heap.mk_world heap_A 5 [] [].

Definition ref_str_Q (_ : Heap.heap (float := Q)) (_ : Heap.pyval (float := Q)) : string :=
  "<container>".
Definition nondict_contains_Q (_ : Heap.heap (float := Q)) (_ _ : Heap.pyval (float := Q))
  : res bool := Raise TypeError.
Definition nondict_getitem_Q (_ : Heap.heap (float := Q)) (_ _ : Heap.pyval (float := Q))
  : res (Heap.pyval (float := Q)) := Raise TypeError.

End QInst.

(** * Proofs *)

Section Proofs.

Context {float : Type} `{FloatOps float} `{PyEnv (float := float)}.

Lemma fold_res_app {A B} (f : A -> B -> res A) (a : A) (l1 l2 : list B) :
  fold_res f a (l1 ++ l2) = res_bind (fold_res f a l1) (fun b => fold_res f b l2).
Proof.
  revert a; induction l1 as [|x l1 IH]; intros a; simpl; [reflexivity|].
  destruct (f a x); simpl; [apply IH|reflexivity].
Qed.

Lemma int_to_float_exc (z : Z) (e : exc) :
  int_to_float z = Raise e -> e = OverflowError.
Proof. unfold int_to_float; destruct (float_of_Z z); congruence. Qed.

Lemma py_add_exc (a b : pnum) (e : exc) :
  py_add a b = Raise e -> e = OverflowError.
Proof.
  destruct a, b; simpl; try congruence;
    destruct (int_to_float _) eqn:E; simpl; try congruence;
    intros [= <-]; eauto using int_to_float_exc.
Qed.

Lemma py_mul_float_numeric_exc (p : float) (q : jvalue) (e : exc) :
  match q with JInt _ | JFloat _ | JBool _ => True | _ => False end ->
  py_mul_float p q = Raise e -> e = OverflowError.
Proof.
  destruct q; simpl; try contradiction; intros _; try congruence;
    destruct (int_to_float _) eqn:E; simpl; try congruence;
    intros [= <-]; eauto using int_to_float_exc.
Qed.

(** A valid line item adds [price * quantity] and records nothing. *)
Lemma valid_item_step (sale cat item : jvalue) (t : pnum) (errors : list string) :
  valid_item cat item ->
  sale_item_step sale cat (t, errors) item =
  res_map (fun t' => (t', errors))
    (x <- spec_line_value cat item ;; py_add t (PFloat x)).
Proof.
  intros (ikv & ckv & s & q & raw & p & -> & -> & Hp & Hs & Hq & Hnum & Hraw & Hf).
  unfold sale_item_step, spec_line_value, price_try.
  rewrite Hp, Hq; simpl.
  assert (Htp : String.eqb s "" = false) by (apply String.eqb_neq; exact Hs).
  assert (Htq : truthy q = true).
  { destruct Hnum as [(z & -> & Hz) | (f & -> & Hf')]; simpl; [|exact Hf'].
    apply Z.eqb_neq in Hz; rewrite Hz; reflexivity. }
  rewrite Htp, Htq; simpl.
  rewrite Hraw; simpl. rewrite Hf; simpl.
  destruct (py_mul_float p q) as [x|e] eqn:Hm; simpl.
  - destruct (py_add t (PFloat x)) as [t'|e] eqn:Ha; simpl; [reflexivity|].
    apply py_add_exc in Ha; subst; reflexivity.
  - assert (e = OverflowError).
    { apply (py_mul_float_numeric_exc p q); [|exact Hm].
      destruct Hnum as [(z & -> & _) | (f & -> & _)]; exact I. }
    subst; reflexivity.
Qed.

Lemma valid_items_fold (sale cat : jvalue) (items : list jvalue) (t : pnum) (errors : list string) :
  Forall (valid_item cat) items ->
  fold_res (sale_item_step sale cat) (t, errors) items =
  res_map (fun t' => (t', errors))
    (fold_res (fun acc item => x <- spec_line_value cat item ;; py_add acc (PFloat x)) t items).
Proof.
  intros Hv; revert t; induction Hv as [|item items Hi Hv IH]; intros t;
    cbn [fold_res]; [reflexivity|].
  rewrite (valid_item_step sale cat item t errors Hi).
  destruct (x <- spec_line_value cat item ;; py_add t (PFloat x)); simpl; [apply IH|reflexivity].
Qed.

Lemma valid_sale_cost (sale cat : jvalue) :
  valid_sale cat sale ->
  compute_sale_cost sale cat = res_map (fun t => (t, [])) (spec_sale_total cat sale).
Proof.
  intros (items & Hitems & Hv).
  unfold compute_sale_cost, spec_sale_total; rewrite Hitems; simpl.
  apply valid_items_fold; exact Hv.
Qed.

(** C1: on sales with no invalid items, the grand total computed by main's
    loop over [compute_sale_cost] is the sum over all sales and all their
    line items of [price(product) * quantity], and no error is recorded. *)
Theorem sales_total_valid (cat : jvalue) (sales : list jvalue) :
  Forall (valid_sale cat) sales ->
  sales_loop cat sales = res_map (fun t => (t, [])) (spec_total cat sales).
Proof.
  unfold sales_loop, spec_total.
  generalize (@PInt float 0) as t.
  intros t Hv; revert t; induction Hv as [|sale sales Hs Hv IH]; intros t;
    cbn [fold_res]; [reflexivity|].
  unfold sales_step at 1; rewrite (valid_sale_cost sale cat Hs).
  destruct (spec_sale_total cat sale) as [c|e]; simpl; [|reflexivity].
  destruct (py_add t c); simpl; [apply IH|reflexivity].
Qed.

(** [compute_sale_cost] runs the items before an item, that item, then the
    items after it. *)
Lemma compute_sale_cost_split (sale cat items_v it : jvalue) (pre post : list jvalue) :
  py_get sale "items" (JList []) = Ok items_v ->
  py_iter items_v = Ok (pre ++ it :: post)%list ->
  compute_sale_cost sale cat =
  res_bind (fold_res (sale_item_step sale cat) (PInt 0, []) pre) (fun st =>
  res_bind (sale_item_step sale cat st it) (fun st' =>
  fold_res (sale_item_step sale cat) st' post)).
Proof.
  intros Hi Hit; unfold compute_sale_cost; rewrite Hi; simpl; rewrite Hit; simpl.
  rewrite fold_res_app; reflexivity.
Qed.

Lemma py_get_dict (obj : @jvalue float) (key : string) (d v : @jvalue float) :
  py_get obj key d = Ok v -> exists kv, obj = JObj kv.
Proof. destruct obj; simpl; try congruence; eauto. Qed.

(** C4: a line item (a dict) whose product is falsy (absent, empty) or
    whose quantity is falsy (absent, zero) adds exactly one error
    "Invalid item in sale <id>: Missing product name or quantity", with
    <id> the sale's id or "Unknown" when it has none; it adds nothing to
    the total, and the loop goes on with the next item. *)
Theorem invalid_item_one_error (sale cat items_v : jvalue) (pre post : list jvalue)
  (ikv : list (string * jvalue)) (product quantity : jvalue) :
  py_get sale "items" (JList []) = Ok items_v ->
  py_iter items_v = Ok (pre ++ JObj ikv :: post)%list ->
  py_get (JObj ikv) "product" JNull = Ok product ->
  py_get (JObj ikv) "quantity" (JInt 0) = Ok quantity ->
  truthy product = false \/ truthy quantity = false ->
  exists skv, sale = JObj skv /\
  compute_sale_cost sale cat =
  res_bind (fold_res (sale_item_step sale cat) (PInt 0, []) pre) (fun '(t, errors) =>
    fold_res (sale_item_step sale cat)
      ((t, errors ++ [msg_invalid_item
                       (match dict_get skv "id" with Some v => v | None => JStr "Unknown" end)])%list)
      post).
Proof.
  intros Hi Hit Hp Hq Hbad.
  destruct (py_get_dict _ _ _ _ Hi) as [skv ->]; exists skv; split; [reflexivity|].
  rewrite (compute_sale_cost_split _ cat _ _ _ _ Hi Hit).
  destruct (fold_res _ _ pre) as [[t errors]|e]; cbn [res_bind]; [|reflexivity].
  unfold sale_item_step; rewrite Hp, Hq; cbn [res_bind].
  assert (Hb : negb (truthy product) || negb (truthy quantity) = true).
  { destruct Hbad as [-> | ->]; [reflexivity|apply orb_true_r]. }
  rewrite Hb; simpl; destruct (dict_get skv "id"); reflexivity.
Qed.

(** C5: a line item (a dict) with a truthy hashable product that is not a
    key of the (dict) catalogue, and a truthy quantity, adds exactly one
    error "Product '<product>' not found in price catalogue" and nothing
    to the total; the loop goes on with the next item. *)
Theorem unknown_product_one_error (sale items_v : jvalue) (ckv : list (string * jvalue))
  (pre post : list jvalue) (ikv : list (string * jvalue)) (product quantity : jvalue) :
  py_get sale "items" (JList []) = Ok items_v ->
  py_iter items_v = Ok (pre ++ JObj ikv :: post)%list ->
  py_get (JObj ikv) "product" JNull = Ok product ->
  py_get (JObj ikv) "quantity" (JInt 0) = Ok quantity ->
  truthy product = true -> truthy quantity = true -> hashable product = true ->
  (forall s, product = JStr s -> dict_get ckv s = None) ->
  compute_sale_cost sale (JObj ckv) =
  res_bind (fold_res (sale_item_step sale (JObj ckv)) (PInt 0, []) pre) (fun '(t, errors) =>
    fold_res (sale_item_step sale (JObj ckv)) (t, (errors ++ [msg_not_found product])%list) post).
Proof.
  intros Hi Hit Hp Hq Htp Htq Hh Hnk.
  rewrite (compute_sale_cost_split _ _ _ _ _ _ Hi Hit).
  destruct (fold_res _ _ pre) as [[t errors]|e]; cbn [res_bind]; [|reflexivity].
  unfold sale_item_step; rewrite Hp, Hq; cbn [res_bind].
  rewrite Htp, Htq; simpl.
  unfold py_contains; rewrite Hh.
  destruct product; simpl in Hh |- *; try discriminate; try reflexivity.
  rewrite (Hnk s eq_refl); reflexivity.
Qed.

(** How the [try] block of lines 72-79 settles a line item whose product
    is a non-empty key of the catalogue and whose quantity is truthy. *)
Lemma price_step_cases (sale : jvalue) (ckv ikv : list (string * jvalue)) (s : string)
  (quantity raw : jvalue) (t : pnum) (errors : list string) :
  py_get (JObj ikv) "product" JNull = Ok (JStr s) -> s <> "" ->
  py_get (JObj ikv) "quantity" (JInt 0) = Ok quantity -> truthy quantity = true ->
  dict_get ckv s = Some raw ->
  (forall e, py_float raw = Raise e -> caught e = true ->
     sale_item_step sale (JObj ckv) (t, errors) (JObj ikv) =
     Ok (t, (errors ++ [msg_invalid_price (JStr s)])%list)) /\
  (forall p e, py_float raw = Ok p -> py_mul_float p quantity = Raise e -> caught e = true ->
     sale_item_step sale (JObj ckv) (t, errors) (JObj ikv) =
     Ok (t, (errors ++ [msg_invalid_price (JStr s)])%list)) /\
  (forall p x, py_float raw = Ok p -> py_mul_float p quantity = Ok x ->
     sale_item_step sale (JObj ckv) (t, errors) (JObj ikv) =
     res_map (fun t' => (t', errors)) (py_add t (PFloat x))).
Proof.
  intros Hp Hs Hq Htq Hraw.
  assert (Hstep : sale_item_step sale (JObj ckv) (t, errors) (JObj ikv) =
    match price_try t (JObj ckv) (JStr s) quantity with
    | Ok t' => Ok (t', errors)
    | Raise e => if caught e then Ok (t, (errors ++ [msg_invalid_price (JStr s)])%list) else Raise e
    end).
  { unfold sale_item_step; rewrite Hp, Hq; simpl.
    apply String.eqb_neq in Hs; rewrite Hs, Htq; simpl; rewrite Hraw; reflexivity. }
  rewrite Hstep; unfold price_try; simpl; rewrite Hraw; simpl.
  split; [|split].
  - intros e Hf Hc; rewrite Hf; simpl; rewrite Hc; reflexivity.
  - intros p e Hf Hm Hc; rewrite Hf; simpl; rewrite Hm; simpl; rewrite Hc; reflexivity.
  - intros p x Hf Hm; rewrite Hf; simpl; rewrite Hm; simpl.
    destruct (py_add t (PFloat x)) as [t'|e] eqn:Ha; [reflexivity|].
    apply py_add_exc in Ha; subst; reflexivity.
Qed.

(** C3 (amended): for a line item (a dict) whose product is a non-empty
    key of the (dict) catalogue and whose quantity is truthy, the error
    "Invalid price for product '<product>' in price catalogue" is recorded,
    and nothing added, when [float(price)] raises ValueError or TypeError,
    and also when [float(price)] succeeds but [price * quantity] raises
    TypeError (a non-numeric quantity); when both succeed,
    [price * quantity] is added to the total and nothing is recorded. *)
Theorem invalid_price_step (sale : jvalue) (ckv ikv : list (string * jvalue)) (s : string)
  (quantity raw : jvalue) (t : pnum) (errors : list string) :
  py_get (JObj ikv) "product" JNull = Ok (JStr s) -> s <> "" ->
  py_get (JObj ikv) "quantity" (JInt 0) = Ok quantity -> truthy quantity = true ->
  dict_get ckv s = Some raw ->
  (forall e, py_float raw = Raise e -> caught e = true ->
     sale_item_step sale (JObj ckv) (t, errors) (JObj ikv) =
     Ok (t, (errors ++ [msg_invalid_price (JStr s)])%list)) /\
  (forall p e, py_float raw = Ok p -> py_mul_float p quantity = Raise e -> caught e = true ->
     sale_item_step sale (JObj ckv) (t, errors) (JObj ikv) =
     Ok (t, (errors ++ [msg_invalid_price (JStr s)])%list)) /\
  (forall p x, py_float raw = Ok p -> py_mul_float p quantity = Ok x ->
     sale_item_step sale (JObj ckv) (t, errors) (JObj ikv) =
     res_map (fun t' => (t', errors)) (py_add t (PFloat x))).
Proof.
  intros Hp Hs Hq Htq Hraw.
  exact (price_step_cases sale ckv ikv s quantity raw t errors Hp Hs Hq Htq Hraw).
Qed.

(** C10: a negative quantity is accepted: for a line item whose product is
    a non-empty key of the catalogue with a price that [float()] accepts,
    a negative int quantity (or any non-zero float quantity) records no
    error and adds [price * quantity] to the total. *)
Theorem negative_quantity_accepted (sale : jvalue) (ckv ikv : list (string * jvalue)) (s : string)
  (quantity raw : jvalue) (p : float) (t : pnum) (errors : list string) :
  py_get (JObj ikv) "product" JNull = Ok (JStr s) -> s <> "" ->
  py_get (JObj ikv) "quantity" (JInt 0) = Ok quantity ->
  dict_get ckv s = Some raw -> py_float raw = Ok p ->
  (forall z fz, quantity = JInt z -> (z < 0)%Z -> float_of_Z z = Some fz ->
     sale_item_step sale (JObj ckv) (t, errors) (JObj ikv) =
     res_map (fun t' => (t', errors)) (py_add t (PFloat (fmul p fz)))) /\
  (forall f, quantity = JFloat f -> fnonzero f = true ->
     sale_item_step sale (JObj ckv) (t, errors) (JObj ikv) =
     res_map (fun t' => (t', errors)) (py_add t (PFloat (fmul p f)))).
Proof.
  intros Hp Hs Hq Hraw Hf; split.
  - intros z fz -> Hz Hfz.
    assert (Htq : truthy (@JInt float z) = true).
    { simpl; destruct (Z.eqb_spec z 0); [lia|reflexivity]. }
    destruct (price_step_cases sale ckv ikv s (JInt z) raw t errors Hp Hs Hq Htq Hraw)
      as (_ & _ & Hok).
    apply (Hok p); [exact Hf|].
    simpl; unfold int_to_float; rewrite Hfz; reflexivity.
  - intros f -> Hnz.
    destruct (price_step_cases sale ckv ikv s (JFloat f) raw t errors Hp Hs Hq Hnz Hraw)
      as (_ & _ & Hok).
    apply (Hok p); [exact Hf|reflexivity].
Qed.

(** A loop iteration only appends to [errors], and what it appends does not
    depend on the errors recorded before. *)
Lemma sale_item_step_errors (sale cat : jvalue) (t : pnum) (errors : list string) (item : jvalue) :
  sale_item_step sale cat (t, errors) item =
  res_map (fun st => (fst st, (errors ++ snd st)%list)) (sale_item_step sale cat (t, []) item).
Proof.
  unfold sale_item_step.
  destruct (py_get item "product" JNull) as [product|e]; cbn [res_bind res_map]; [|reflexivity].
  destruct (py_get item "quantity" (JInt 0)) as [quantity|e]; cbn [res_bind res_map];
    [|reflexivity].
  destruct (negb (truthy product) || negb (truthy quantity)).
  - destruct (py_get sale "id" (JStr "Unknown")); reflexivity.
  - destruct (py_contains product cat) as [is_in|e]; cbn [res_bind res_map]; [|reflexivity].
    destruct (negb is_in); [reflexivity|].
    destruct (price_try t cat product quantity) as [t'|e]; cbn [res_map fst snd];
      [rewrite app_nil_r; reflexivity|].
    destruct (caught e); reflexivity.
Qed.

Lemma sale_items_fold_errors (sale cat : jvalue) (items : list jvalue) :
  forall t errors t' errors',
  fold_res (sale_item_step sale cat) (t, errors) items = Ok (t', errors') ->
  exists ms, errors' = (errors ++ List.concat ms)%list /\
    Forall2 (fun item m => exists ta tb, sale_item_step sale cat (ta, []) item = Ok (tb, m))
      items ms.
Proof.
  induction items as [|item items IH]; intros t errors t' errors' Hf; cbn [fold_res] in Hf.
  - injection Hf as <- <-; exists []; split; [rewrite app_nil_r; reflexivity|constructor].
  - rewrite sale_item_step_errors in Hf.
    destruct (sale_item_step sale cat (t, []) item) as [[tb m]|e] eqn:Hs; cbn in Hf; [|discriminate].
    destruct (IH _ _ _ _ Hf) as (ms & -> & Hms).
    exists (m :: ms); split.
    + cbn [List.concat]; rewrite app_assoc; reflexivity.
    + constructor; [exists t, tb; exact Hs|exact Hms].
Qed.

Lemma sales_fold_errors (cat : jvalue) (sales : list jvalue) :
  forall t errors t' errors',
  fold_res (sales_step cat) (t, errors) sales = Ok (t', errors') ->
  exists per_sale, errors' = (errors ++ List.concat per_sale)%list /\
    Forall2 (fun sale e => exists tc, compute_sale_cost sale cat = Ok (tc, e)) sales per_sale.
Proof.
  induction sales as [|sale sales IH]; intros t errors t' errors' Hf; cbn [fold_res] in Hf.
  - injection Hf as <- <-; exists []; split; [rewrite app_nil_r; reflexivity|constructor].
  - unfold sales_step at 1 in Hf.
    destruct (compute_sale_cost sale cat) as [[tc e]|ex] eqn:Hc; cbn in Hf; [|discriminate].
    destruct (py_add t tc) as [t1|ex] eqn:Ha; cbn in Hf; [|discriminate].
    destruct (IH _ _ _ _ Hf) as (per & -> & Hper).
    exists (e :: per); split.
    + cbn [List.concat]; rewrite app_assoc; reflexivity.
    + constructor; [exists tc; exact Hc|exact Hper].
Qed.

Lemma sale_cost_errors (sale cat : jvalue) (tc : pnum) (e : list string) :
  compute_sale_cost sale cat = Ok (tc, e) ->
  exists items_v items ms,
    py_get sale "items" (JList []) = Ok items_v /\ py_iter items_v = Ok items /\
    e = List.concat ms /\
    Forall2 (fun item m => exists ta tb, sale_item_step sale cat (ta, []) item = Ok (tb, m))
      items ms.
Proof.
  unfold compute_sale_cost.
  destruct (py_get sale "items" (JList [])) as [items_v|ex] eqn:Hi; cbn [res_bind];
    [|discriminate].
  destruct (py_iter items_v) as [items|ex] eqn:Hit; cbn [res_bind]; [|discriminate].
  intros Hf; destruct (sale_items_fold_errors _ _ _ _ _ _ _ Hf) as (ms & He & Hms).
  exists items_v, items, ms; split; [reflexivity|split; [exact Hit|split; [exact He|exact Hms]]].
Qed.

(** C6: the error list of a run is the concatenation, in sale order, of the
    error lists of the sales, and each sale's error list is the
    concatenation, in item order, of what each of its line items recorded:
    nothing is reordered or dropped, and equal messages all stay. *)
Theorem errors_in_encounter_order (cat : jvalue) (sales : list jvalue) (t : pnum)
  (errors : list string) :
  sales_loop cat sales = Ok (t, errors) ->
  exists per_sale, errors = List.concat per_sale /\
    Forall2 (fun sale e =>
      (exists tc, compute_sale_cost sale cat = Ok (tc, e)) /\
      exists items_v items ms,
        py_get sale "items" (JList []) = Ok items_v /\ py_iter items_v = Ok items /\
        e = List.concat ms /\
        Forall2 (fun item m => exists ta tb, sale_item_step sale cat (ta, []) item = Ok (tb, m))
          items ms)
      sales per_sale.
Proof.
  unfold sales_loop; intros Hf.
  destruct (sales_fold_errors _ _ _ _ _ _ Hf) as (per & He & Hper).
  exists per; split; [exact He|].
  clear He Hf; induction Hper as [|sale e sales per [tc Hc] _ IH]; constructor; auto.
  split; [exists tc; exact Hc|].
  exact (sale_cost_errors _ _ _ _ Hc).
Qed.

(** The exceptions [float()] and [*] can raise are caught, apart from the
    overflow of an int converted to a float. *)
Lemma py_float_exc (v : jvalue) (e : exc) :
  py_float v = Raise e -> caught e = true \/ e = OverflowError.
Proof.
  destruct v as [|b|z|f|s|l|kv]; simpl.
  - intros [= <-]; left; reflexivity.
  - intros Hf; right; exact (int_to_float_exc _ _ Hf).
  - intros Hf; right; exact (int_to_float_exc _ _ Hf).
  - discriminate.
  - destruct (float_of_string s); [discriminate|intros [= <-]; left; reflexivity].
  - intros [= <-]; left; reflexivity.
  - intros [= <-]; left; reflexivity.
Qed.

Lemma py_mul_float_exc (p : float) (q : jvalue) (e : exc) :
  py_mul_float p q = Raise e -> caught e = true \/ e = OverflowError.
Proof.
  destruct q; simpl; try (intros [= <-]; left; reflexivity); try congruence;
    destruct (int_to_float _) eqn:E; simpl; try congruence;
    intros [= <-]; right; exact (int_to_float_exc _ _ E).
Qed.

Lemma shaped_item_step_exc (sale : jvalue) (skv ckv : list (string * jvalue)) (st : pnum * list string)
  (item : jvalue) (e : exc) :
  sale = JObj skv -> shaped_item item ->
  sale_item_step sale (JObj ckv) st item = Raise e -> e = OverflowError.
Proof.
  intros -> (ikv & -> & Hh); destruct st as [t errors].
  unfold sale_item_step; cbn [py_get].
  set (product := match dict_get ikv "product" with Some v => v | None => JNull end) in Hh.
  assert (Hp : match dict_get ikv "product" with Some v => Ok v | None => Ok JNull end
               = @Ok (@jvalue float) product) by (unfold product; destruct (dict_get ikv "product"); reflexivity).
  rewrite Hp; cbn [res_bind].
  destruct (match dict_get ikv "quantity" with Some v => Ok v | None => Ok (JInt 0) end)
    as [quantity|ex] eqn:Hq; [|destruct (dict_get ikv "quantity"); discriminate].
  cbn [res_bind].
  destruct (negb (truthy product) || negb (truthy quantity)).
  { destruct (dict_get skv "id"); discriminate. }
  unfold py_contains; rewrite Hh.
  destruct product eqn:Hprod; cbn [res_bind negb]; try discriminate.
  destruct (dict_get ckv s) as [raw|] eqn:Hraw; cbn [negb]; [|discriminate].
  unfold price_try; cbn [py_getitem hashable]; rewrite Hraw; cbn [res_bind].
  destruct (py_float raw) as [p|ex] eqn:Hf; cbn [res_bind].
  - destruct (py_mul_float p quantity) as [x|ex] eqn:Hm; cbn [res_bind].
    + destruct (py_add t (PFloat x)) as [t'|ex] eqn:Ha; [discriminate|].
      apply py_add_exc in Ha; subst.
      intros [= <-]; reflexivity.
    + destruct (py_mul_float_exc _ _ _ Hm) as [Hc | ->].
      * rewrite Hc; discriminate.
      * intros [= <-]; reflexivity.
  - destruct (py_float_exc _ _ Hf) as [Hc | ->].
    + rewrite Hc; discriminate.
    + intros [= <-]; reflexivity.
Qed.

(** A dict sale whose items are dicts with a product that is not a list
    or a dict raises nothing but OverflowError. *)
Lemma shaped_sale_cost_exc (ckv : list (string * jvalue)) (sale : jvalue) (e : exc) :
  shaped_sale sale -> compute_sale_cost sale (JObj ckv) = Raise e -> e = OverflowError.
Proof.
  intros [items [Hi Hitems]].
  destruct (py_get_dict _ _ _ _ Hi) as [skv Hskv].
  unfold compute_sale_cost; rewrite Hi; cbn [res_bind py_iter].
  generalize (@PInt float 0, @nil string) as st0; clear Hi.
  induction Hitems as [|item items Hit _ IHit]; intros st0; cbn [fold_res]; [discriminate|].
  destruct (sale_item_step sale (JObj ckv) st0 item) as [st1|ex0] eqn:Hst; cbn [res_bind].
  - apply IHit.
  - intros [= <-]; exact (shaped_item_step_exc _ _ _ _ _ _ Hskv Hit Hst).
Qed.

Lemma prog_bind_done {A B} (m : @prog float A) (k : A -> @prog float B) (tr : list event) (r : B) :
  prog_bind m k = (tr, Done r) ->
  exists tr1 a tr2, m = (tr1, Done a) /\ k a = (tr2, Done r) /\ tr = (tr1 ++ tr2)%list.
Proof.
  destruct m as [tr1 [a|c|e]]; cbn [prog_bind]; try discriminate.
  destruct (k a) as [tr2 o] eqn:Hk; intros [= <- ->].
  exists tr1, a, tr2; split; [reflexivity|split; [exact Hk|reflexivity]].
Qed.

Lemma main_step_done (cat : jvalue) (st : pnum * list string) (sale : jvalue)
  (tr : list event) (r : pnum * list string) :
  main_step cat st sale = (tr, Done r) ->
  tr = [CostCall sale] /\ sales_step cat st sale = Ok r.
Proof.
  destruct st as [t errors]; unfold main_step, sales_step.
  destruct (compute_sale_cost sale cat) as [[sc es]|e]; cbn [res_bind];
    [|simpl; intros Hx; congruence].
  simpl; destruct (py_add t sc) as [t'|e]; simpl; [|intros Hx; congruence].
  intros [= <- <-]; split; reflexivity.
Qed.

Lemma main_loop_done (cat : jvalue) (sales : list jvalue) :
  forall st tr r,
  prog_fold (main_step cat) st sales = (tr, Done r) ->
  tr = List.map CostCall sales /\ fold_res (sales_step cat) st sales = Ok r.
Proof.
  induction sales as [|sale sales IH]; intros st tr r; cbn [prog_fold].
  - unfold prog_ret; intros [= <- <-]; split; reflexivity.
  - intros Hb; destruct (prog_bind_done _ _ _ _ Hb) as (tr1 & a & tr2 & Hm & Hk & ->).
    destruct (main_step_done _ _ _ _ _ Hm) as [-> Hs].
    destruct (IH _ _ _ Hk) as [-> Hl].
    split; [reflexivity|cbn [fold_res]; rewrite Hs; exact Hl].
Qed.

(** C7: when the sales-record document parses to anything but a list, the
    run prints "Error: Sales record must be a list of sales" and exits with
    status 1; nothing else happens: no sale is costed and no file is
    written. *)
Theorem sales_not_list_fatal (argv : list string) (start_time end_time : float)
  (cat doc : jvalue) :
  List.length argv = 3%nat ->
  read_json (nth 1 argv "") = Loaded cat ->
  read_json (nth 2 argv "") = Loaded doc ->
  (forall sales, doc <> JList sales) ->
  main argv start_time end_time =
  ([Print "Error: Sales record must be a list of sales"], Exit 1%Z).
Proof.
  intros Hlen Hc Hs Hnl; unfold main; rewrite Hlen; cbn [Nat.eqb negb].
  unfold load_json_file; rewrite Hc, Hs; unfold prog_bind, prog_ret.
  destruct doc as [|b|z|f|s|sales|kv]; try reflexivity.
  exfalso; exact (Hnl sales eq_refl).
Qed.

(** C8: a successful run costs every sale, then prints the report and
    writes the same text to SalesResults.txt.  The report is the header,
    "Total Cost: $<total to 2 places>", "Execution Time: <elapsed to 3
    places> seconds", then the blank-line-prefixed "Errors encountered
    during execution:" and the errors in accumulated order, or the
    blank-line-prefixed "No errors encountered during execution.". *)
Theorem report_layout (argv : list string) (start_time end_time : float) (tr : list event) :
  main argv start_time end_time = (tr, Done tt) ->
  exists cat sales total errors total_str,
    read_json (nth 1 argv "") = Loaded cat /\
    read_json (nth 2 argv "") = Loaded (JList sales) /\
    sales_loop cat sales = Ok (total, errors) /\
    format_fixed 2 total = Ok total_str /\
    let report :=
      app ["=== Sales Computation Results ===";
           "Total Cost: $" ++ total_str;
           "Execution Time: " ++ float_fixed 3 (fsub end_time start_time) ++ " seconds"]
        (match errors with
         | [] => [nl ++ "No errors encountered during execution."]
         | _ :: _ => (nl ++ "Errors encountered during execution:") :: errors
         end) in
    tr = app (List.map CostCall sales)
           [Print (String.concat nl report);
            WriteFile "SalesResults.txt" (String.concat nl report)].
Proof.
  unfold main.
  destruct (Nat.eqb (List.length argv) 3); cbn [negb]; [|discriminate].
  unfold load_json_file.
  destruct (read_json (nth 1 argv "")) as [|m|cat|ex]; unfold prog_bind at 1; try discriminate.
  destruct (read_json (nth 2 argv "")) as [|m|doc|ex]; unfold prog_ret, prog_bind at 1;
    try discriminate.
  destruct doc as [|b|z|f|s|sales|kv]; try discriminate.
  unfold prog_bind.
  destruct (prog_fold (main_step cat) (PInt 0, []) sales) as [tr1 o] eqn:Hf.
  destruct o as [[total errors]|c|ex]; try discriminate.
  destruct (main_loop_done _ _ _ _ _ Hf) as [-> Hl].
  unfold write_results, prog_bind.
  destruct (format_fixed 2 total) as [total_str|ex] eqn:Hfmt; cbn [of_res]; [|discriminate].
  destruct (write_text _ _); [|discriminate|discriminate].
  intros Htr.
  exists cat, sales, total, errors, total_str.
  split; [reflexivity|split; [reflexivity|split; [exact Hl|split; [exact Hfmt|]]]].
  cbn [app] in Htr; injection Htr as <-.
  destruct errors; reflexivity.
Qed.

(** ** Exits, crashes and the trace of main *)

Lemma prog_bind_exit {A B} (m : @prog float A) (k : A -> @prog float B) (tr : list event) (c : Z) :
  prog_bind m k = (tr, Exit c) ->
  m = (tr, Exit c) \/
  exists tr1 a tr2, m = (tr1, Done a) /\ k a = (tr2, Exit c) /\ tr = (tr1 ++ tr2)%list.
Proof.
  destruct m as [tr1 [a|c'|e]]; cbn [prog_bind]; try discriminate.
  - destruct (k a) as [tr2 o] eqn:Hk; intros [= <- ->]; right; exists tr1, a, tr2; auto.
  - intros [= <- <-]; left; reflexivity.
Qed.

Lemma load_json_file_done (filename : string) (tr : list event) (v : jvalue) :
  load_json_file filename = (tr, Done v) -> tr = [] /\ read_json filename = Loaded v.
Proof.
  unfold load_json_file; destruct (read_json filename); try discriminate.
  intros [= <- <-]; split; reflexivity.
Qed.

Lemma load_json_file_exit (filename : string) (tr : list event) (c : Z) :
  load_json_file filename = (tr, Exit c) -> c = 1%Z /\ exists msg, tr = [Print msg].
Proof.
  unfold load_json_file; destruct (read_json filename); try discriminate;
    intros [= <- <-]; split; eauto.
Qed.

Lemma main_step_no_exit (cat : jvalue) (st : pnum * list string) (sale : jvalue)
  (tr : list event) (c : Z) :
  main_step cat st sale = (tr, Exit c) -> False.
Proof.
  destruct st as [t errors]; unfold main_step.
  destruct (compute_sale_cost sale cat) as [[sc es]|e]; simpl; [|discriminate].
  destruct (py_add t sc); simpl; discriminate.
Qed.

Lemma main_loop_no_exit (cat : jvalue) (sales : list jvalue) :
  forall st tr c, prog_fold (main_step cat) st sales = (tr, Exit c) -> False.
Proof.
  induction sales as [|sale sales IH]; intros st tr c; cbn [prog_fold]; [discriminate|].
  intros Hm; apply prog_bind_exit in Hm as [Hm | (tr1 & a & tr2 & _ & Hm & _)].
  - exact (main_step_no_exit _ _ _ _ _ Hm).
  - exact (IH _ _ _ Hm).
Qed.

Lemma write_results_no_exit (t : pnum) (et : float) (errors : list string) (tr : list event) (c : Z) :
  write_results t et errors = (tr, Exit c) -> False.
Proof.
  unfold write_results; destruct (format_fixed 2 t); simpl; [|discriminate].
  destruct (write_text _ _); discriminate.
Qed.

(** X1: every [sys.exit] of the program (a wrong argument count, a file
    that is missing or not JSON, a sales record that is not a list) exits
    with status 1 after printing exactly one line, before any sale is
    costed and before any file is written. *)
Theorem main_exit_status_one (argv : list string) (start_time end_time : float)
  (tr : list event) (c : Z) :
  main argv start_time end_time = (tr, Exit c) -> c = 1%Z /\ exists msg, tr = [Print msg].
Proof.
  unfold main; destruct (negb (Nat.eqb (List.length argv) 3)).
  { intros [= <- <-]; split; eauto. }
  intros Hm; apply prog_bind_exit in Hm as [Hm | (tr1 & cat & tr2 & H1 & Hm & ->)].
  { exact (load_json_file_exit _ _ _ Hm). }
  destruct (load_json_file_done _ _ _ H1) as [-> _].
  apply prog_bind_exit in Hm as [Hm | (tr3 & doc & tr4 & H3 & Hm & ->)].
  { exact (load_json_file_exit _ _ _ Hm). }
  destruct (load_json_file_done _ _ _ H3) as [-> _]; cbn [app].
  destruct doc as [|b|z|f|s|sales|kv]; try (injection Hm as <- <-; split; eauto).
  apply prog_bind_exit in Hm as [Hm | (tr5 & [total errors] & tr6 & _ & Hm & _)].
  - exfalso; exact (main_loop_no_exit _ _ _ _ _ Hm).
  - exfalso; exact (write_results_no_exit _ _ _ _ _ Hm).
Qed.

(** ** What compute_sale_cost raises and records *)

Lemma py_get_exc (obj : @jvalue float) (key : string) (d : @jvalue float) (e : exc) :
  py_get obj key d = Raise e -> e = AttributeError.
Proof.
  destruct obj; simpl; try (intros [= <-]; reflexivity).
  destruct (dict_get kv key); discriminate.
Qed.

Lemma py_iter_exc (v : @jvalue float) (e : exc) : py_iter v = Raise e -> e = TypeError.
Proof. destruct v; simpl; try discriminate; intros [= <-]; reflexivity. Qed.

Lemma sale_item_step_dict_exc (sale : jvalue) (ckv : list (string * jvalue))
  (st : pnum * list string) (item : jvalue) (e : exc) :
  sale_item_step sale (JObj ckv) st item = Raise e ->
  e = AttributeError \/ e = TypeError \/ e = OverflowError.
Proof.
  destruct st as [t errors]; unfold sale_item_step.
  destruct (py_get item "product" JNull) as [product|e0] eqn:Hp; cbn [res_bind];
    [|intros [= <-]; left; exact (py_get_exc _ _ _ _ Hp)].
  destruct (py_get item "quantity" (JInt 0)) as [quantity|e0] eqn:Hq; cbn [res_bind];
    [|intros [= <-]; left; exact (py_get_exc _ _ _ _ Hq)].
  destruct (negb (truthy product) || negb (truthy quantity)).
  { destruct (py_get sale "id" (JStr "Unknown")) as [sid|e0] eqn:Hi; cbn [res_bind];
      [discriminate|intros [= <-]; left; exact (py_get_exc _ _ _ _ Hi)]. }
  unfold py_contains; destruct (hashable product) eqn:Hh;
    [|intros [= <-]; right; left; reflexivity].
  destruct product as [| | | |s| |]; cbn [res_bind negb]; try discriminate.
  destruct (dict_get ckv s) as [raw|] eqn:Hraw; cbn [negb]; [|discriminate].
  unfold price_try; cbn [py_getitem hashable]; rewrite Hraw; cbn [res_bind].
  destruct (py_float raw) as [p|ex] eqn:Hf; cbn [res_bind].
  - destruct (py_mul_float p quantity) as [x|ex] eqn:Hmul; cbn [res_bind].
    + destruct (py_add t (PFloat x)) as [t'|ex] eqn:Ha; [discriminate|].
      apply py_add_exc in Ha; subst; intros [= <-]; right; right; reflexivity.
    + destruct (py_mul_float_exc _ _ _ Hmul) as [Hc | ->].
      * rewrite Hc; discriminate.
      * intros [= <-]; right; right; reflexivity.
  - destruct (py_float_exc _ _ Hf) as [Hc | ->].
    + rewrite Hc; discriminate.
    + intros [= <-]; right; right; reflexivity.
Qed.

Lemma compute_sale_cost_dict_exc (sale : jvalue) (ckv : list (string * jvalue)) (e : exc) :
  compute_sale_cost sale (JObj ckv) = Raise e ->
  e = AttributeError \/ e = TypeError \/ e = OverflowError.
Proof.
  unfold compute_sale_cost.
  destruct (py_get sale "items" (JList [])) as [items|e0] eqn:Hi; cbn [res_bind];
    [|intros [= <-]; left; exact (py_get_exc _ _ _ _ Hi)].
  destruct (py_iter items) as [its|e0] eqn:Hit; cbn [res_bind];
    [|intros [= <-]; right; left; exact (py_iter_exc _ _ Hit)].
  clear Hit; generalize (@PInt float 0, @nil string) as st.
  induction its as [|item its IH]; intros st; cbn [fold_res]; [discriminate|].
  destruct (sale_item_step sale (JObj ckv) st item) as [st1|e1] eqn:Hs; cbn [res_bind].
  - apply IH.
  - intros [= <-]; exact (sale_item_step_dict_exc _ _ _ _ _ Hs).
Qed.

(** X4: with a dict as catalogue, the only exceptions that can escape
    [compute_sale_cost], and main's loop over the sales, are
    AttributeError, TypeError and OverflowError: a price string that
    [float()] rejects (ValueError) is always reported, never raised, and
    the subscription [price_catalogue[product_name]] never raises
    KeyError, since it only runs after the [in] test succeeded. *)
Theorem dict_catalogue_exceptions (ckv : list (string * jvalue)) :
  (forall sale e, compute_sale_cost sale (JObj ckv) = Raise e ->
     e = AttributeError \/ e = TypeError \/ e = OverflowError) /\
  (forall sales e, sales_loop (JObj ckv) sales = Raise e ->
     e = AttributeError \/ e = TypeError \/ e = OverflowError).
Proof.
  split; [exact (fun sale e => compute_sale_cost_dict_exc sale ckv e)|].
  intros sales e; unfold sales_loop; generalize (@PInt float 0, @nil string) as st.
  induction sales as [|sale sales IH]; intros [t errors]; cbn [fold_res]; [discriminate|].
  unfold sales_step at 1.
  destruct (compute_sale_cost sale (JObj ckv)) as [[sc es]|e0] eqn:Hc; cbn [res_bind].
  - destruct (py_add t sc) as [t'|e0] eqn:Ha; cbn [res_bind]; [apply IH|].
    intros [= <-]; right; right; exact (py_add_exc _ _ _ Ha).
  - intros [= <-]; exact (compute_sale_cost_dict_exc _ _ _ Hc).
Qed.

Lemma py_add_float (a : pnum) (x : float) (r : pnum) :
  py_add a (PFloat x) = Ok r -> exists f, r = PFloat f.
Proof.
  destruct a as [z|f]; simpl; [|intros [= <-]; eauto].
  destruct (int_to_float z); simpl; [intros [= <-]; eauto|discriminate].
Qed.

(** One iteration either appends exactly one of the three messages and
    keeps the total, or appends nothing and leaves a float total. *)
Lemma sale_item_step_shape (sale cat : jvalue) (t : pnum) (errors : list string) (item : jvalue)
  (t' : pnum) (errors' : list string) :
  sale_item_step sale cat (t, errors) item = Ok (t', errors') ->
  (exists m, errors' = (errors ++ [m])%list /\ t' = t /\ reported_error m) \/
  (errors' = errors /\ exists f, t' = PFloat f).
Proof.
  unfold sale_item_step.
  destruct (py_get item "product" JNull) as [product|e0]; cbn [res_bind]; [|discriminate].
  destruct (py_get item "quantity" (JInt 0)) as [quantity|e0]; cbn [res_bind]; [|discriminate].
  destruct (negb (truthy product) || negb (truthy quantity)).
  { destruct (py_get sale "id" (JStr "Unknown")) as [sid|e0]; cbn [res_bind]; [|discriminate].
    intros [= <- <-]; left; eexists; split; [reflexivity|split; [reflexivity|]].
    exists (py_str sid); left; reflexivity. }
  destruct (py_contains product cat) as [is_in|e0]; cbn [res_bind]; [|discriminate].
  destruct (negb is_in).
  { intros [= <- <-]; left; eexists; split; [reflexivity|split; [reflexivity|]].
    exists (py_str product); right; left; reflexivity. }
  destruct (price_try t cat product quantity) as [t''|ex] eqn:Hpt.
  - intros [= <- <-]; right; split; [reflexivity|].
    unfold price_try in Hpt.
    destruct (py_getitem cat product); cbn [res_bind] in Hpt; [|discriminate].
    destruct (py_float a); cbn [res_bind] in Hpt; [|discriminate].
    destruct (py_mul_float a0 quantity); cbn [res_bind] in Hpt; [|discriminate].
    exact (py_add_float _ _ _ Hpt).
  - destruct (caught ex); [|discriminate].
    intros [= <- <-]; left; eexists; split; [reflexivity|split; [reflexivity|]].
    exists (py_str product); right; right; reflexivity.
Qed.

Lemma items_fold_count (sale cat : jvalue) (its : list jvalue) :
  forall t errors t' errors',
  fold_res (sale_item_step sale cat) (t, errors) its = Ok (t', errors') ->
  (List.length errors' = (List.length errors + List.length its)%nat /\ t' = t) \/
  ((List.length errors' < List.length errors + List.length its)%nat /\ exists f, t' = PFloat f).
Proof.
  induction its as [|item its IH]; intros t errors t' errors'; cbn [fold_res].
  - intros [= <- <-]; left; split; [simpl; lia|reflexivity].
  - destruct (sale_item_step sale cat (t, errors) item) as [[t1 e1]|ex] eqn:Hs; cbn [res_bind];
      [|discriminate].
    intros Hf; cbn [List.length].
    destruct (sale_item_step_shape _ _ _ _ _ _ _ Hs) as [(m & -> & -> & _) | (-> & f & ->)];
      destruct (IH _ _ _ _ Hf) as [(Hl & ->) | (Hl & g & ->)];
      rewrite ?length_app in Hl; cbn [List.length] in Hl.
    + left; split; [lia|reflexivity].
    + right; split; [lia|eauto].
    + right; split; [lia|eauto].
    + right; split; [lia|eauto].
Qed.

(** X5: each line item of a sale records at most one error: one
    iteration of the loop over the items either appends exactly one
    message and keeps the total, or appends nothing and leaves a float
    total.  Hence, when [compute_sale_cost] returns, either every line
    item recorded exactly one error and the cost is still the int [0], or
    fewer errors than line items were recorded and the cost is a float: a
    priced item always turns the total into a float. *)
Theorem sale_cost_error_count (sale cat : jvalue) :
  (forall t errors item t' errors',
     sale_item_step sale cat (t, errors) item = Ok (t', errors') ->
     (exists m, errors' = (errors ++ [m])%list /\ t' = t) \/
     (errors' = errors /\ exists f, t' = PFloat f)) /\
  (forall t errors,
     compute_sale_cost sale cat = Ok (t, errors) ->
     exists items_v its,
       py_get sale "items" (JList []) = Ok items_v /\ py_iter items_v = Ok its /\
       ((List.length errors = List.length its /\ t = PInt 0%Z) \/
        ((List.length errors < List.length its)%nat /\ exists f, t = PFloat f))).
Proof.
  split.
  - intros t errors item t' errors' Hs.
    destruct (sale_item_step_shape _ _ _ _ _ _ _ Hs) as [(m & Hm1 & Hm2 & _) | Hf];
      [left; exists m; split; assumption|right; exact Hf].
  - intros t errors; unfold compute_sale_cost.
    destruct (py_get sale "items" (JList [])) as [items_v|e0] eqn:Hi; cbn [res_bind];
      [|discriminate].
    destruct (py_iter items_v) as [its|e0] eqn:Hit; cbn [res_bind]; [|discriminate].
    intros Hf; exists items_v, its; split; [reflexivity|split; [exact Hit|]].
    exact (items_fold_count _ _ _ _ _ _ _ Hf).
Qed.

Lemma sale_item_step_str (sale cat : jvalue) (st : pnum * list string) (s : string) :
  sale_item_step sale cat st (JStr s) = Raise AttributeError.
Proof. destruct st; reflexivity. Qed.

(** X6: how [sale.get('items', [])] and its iteration treat the items
    field.  A sale that is not a dict raises AttributeError.  A dict sale
    whose items field is missing, or is an empty list, string or dict,
    costs the int [0] with no error.  An items field that is null, a bool
    or a number is not iterable: TypeError.  A non-empty string or dict
    iterates over strings (its characters or its keys), which have no
    [get]: AttributeError. *)
Theorem sale_items_edge_cases (cat : jvalue) :
  (forall sale, (forall kv, sale <> JObj kv) -> compute_sale_cost sale cat = Raise AttributeError) /\
  (forall skv, dict_get skv "items" = None \/ dict_get skv "items" = Some (JList []) \/
     dict_get skv "items" = Some (JStr "") \/ dict_get skv "items" = Some (JObj []) ->
     compute_sale_cost (JObj skv) cat = Ok (PInt 0%Z, [])) /\
  (forall skv v, dict_get skv "items" = Some v ->
     match v with JNull | JBool _ | JInt _ | JFloat _ => True | _ => False end ->
     compute_sale_cost (JObj skv) cat = Raise TypeError) /\
  (forall skv v, dict_get skv "items" = Some v ->
     match v with JStr s => s <> "" | JObj kv => kv <> [] | _ => False end ->
     compute_sale_cost (JObj skv) cat = Raise AttributeError).
Proof.
  split; [|split; [|split]].
  - intros sale Hnd; unfold compute_sale_cost.
    destruct sale as [| | | | | |kv]; try reflexivity.
    exfalso; exact (Hnd kv eq_refl).
  - intros skv Hv; unfold compute_sale_cost; cbn [py_get].
    destruct Hv as [-> | [-> | [-> | ->]]]; reflexivity.
  - intros skv v Hv Hk; unfold compute_sale_cost; cbn [py_get]; rewrite Hv; cbn [res_bind].
    destruct v; try contradiction; reflexivity.
  - intros skv v Hv Hk; unfold compute_sale_cost; cbn [py_get]; rewrite Hv; cbn [res_bind].
    destruct v as [| | | |s| |kv]; try contradiction.
    + destruct s as [|c s]; [contradiction|]; cbn [py_iter list_ascii_of_string map res_bind fold_res].
      rewrite sale_item_step_str; reflexivity.
    + destruct kv as [|[k v] kv]; [contradiction|]; cbn [py_iter map res_bind fold_res fst].
      rewrite sale_item_step_str; reflexivity.
Qed.

Lemma items_fold_reported (sale cat : jvalue) (its : list jvalue) :
  forall t errors t' errors',
  Forall reported_error errors ->
  fold_res (sale_item_step sale cat) (t, errors) its = Ok (t', errors') ->
  Forall reported_error errors'.
Proof.
  induction its as [|item its IH]; intros t errors t' errors' Hr; cbn [fold_res].
  - intros [= <- <-]; exact Hr.
  - destruct (sale_item_step sale cat (t, errors) item) as [[t1 e1]|ex] eqn:Hs; cbn [res_bind];
      [|discriminate].
    apply IH.
    destruct (sale_item_step_shape _ _ _ _ _ _ _ Hs) as [(m & -> & _ & Hm) | (-> & _)];
      [|exact Hr].
    apply Forall_app; split; [exact Hr|constructor; [exact Hm|constructor]].
Qed.

(** X8: every message in the error list of a run is one of the three the
    costing loop writes: "Invalid item in sale <id>: Missing product name
    or quantity", "Product '<name>' not found in price catalogue" or
    "Invalid price for product '<name>' in price catalogue". *)
Theorem run_errors_reported (cat : jvalue) (sales : list jvalue) (t : pnum)
  (errors : list string) :
  sales_loop cat sales = Ok (t, errors) -> Forall reported_error errors.
Proof.
  unfold sales_loop.
  assert (Hr0 : Forall reported_error (@nil string)) by constructor.
  revert Hr0; generalize (@PInt float 0) as t0, (@nil string) as e0.
  induction sales as [|sale sales IH]; intros t0 e0 Hr0; cbn [fold_res].
  - intros [= <- <-]; exact Hr0.
  - unfold sales_step at 1.
    destruct (compute_sale_cost sale cat) as [[sc es]|ex] eqn:Hc; cbn [res_bind]; [|discriminate].
    destruct (py_add t0 sc) as [t1|ex]; cbn [res_bind]; [|discriminate].
    apply IH; apply Forall_app; split; [exact Hr0|].
    revert Hc; unfold compute_sale_cost.
    destruct (py_get sale "items" (JList [])); cbn [res_bind]; [|discriminate].
    destruct (py_iter a); cbn [res_bind]; [|discriminate].
    apply items_fold_reported; constructor.
Qed.

(** ** The lines of the report *)

Lemma has_nl_app (a b : string) : has_nl (a ++ b) = has_nl a || has_nl b.
Proof.
  induction a as [|c a IH]; cbn [append has_nl]; [reflexivity|].
  rewrite IH, orb_assoc; reflexivity.
Qed.

Lemma split_newline_single (a : string) : has_nl a = false -> split_newline a = [a].
Proof.
  induction a as [|c a IH]; cbn [has_nl split_newline]; [reflexivity|].
  intros Ha; apply orb_false_iff in Ha as [Hc Ha]; rewrite Hc, (IH Ha); reflexivity.
Qed.

Lemma split_newline_join (a s : string) :
  has_nl a = false -> split_newline (a ++ nl ++ s) = a :: split_newline s.
Proof.
  induction a as [|c a IH]; cbn [has_nl]; [reflexivity|].
  intros Ha; apply orb_false_iff in Ha as [Hc Ha].
  cbn [append split_newline]; rewrite Hc; fold (append a (nl ++ s)); rewrite (IH Ha); reflexivity.
Qed.

Lemma concat_nl_cons (x : string) (xs : list string) :
  xs <> [] -> String.concat nl (x :: xs) = x ++ nl ++ String.concat nl xs.
Proof. destruct xs; [contradiction|reflexivity]. Qed.

Lemma split_concat_nl (xs : list string) :
  forall x, Forall (fun s => has_nl s = false) (x :: xs) ->
  split_newline (String.concat nl (x :: xs)) = x :: xs.
Proof.
  induction xs as [|y ys IH]; intros x Hf; inversion Hf as [|? ? Hx Hys]; subst.
  - exact (split_newline_single x Hx).
  - rewrite concat_nl_cons by discriminate.
    rewrite (split_newline_join _ _ Hx), (IH y Hys); reflexivity.
Qed.

(** X7: read back line by line ([text.split('\n')]), the text that
    write_results prints and writes to SalesResults.txt is: the title,
    "Total Cost: $<total to 2 places>", "Execution Time: <time to 3
    places> seconds", an empty line, then "Errors encountered during
    execution:" followed by one line per error in order, or the single
    line "No errors encountered during execution.".  This holds when the
    formatted numbers and the error messages contain no newline (a
    product name or sale id with a newline would split its message). *)
Theorem write_results_lines (total_cost : pnum) (execution_time : float) (errors : list string)
  (tr : list event) :
  write_results total_cost execution_time errors = (tr, Done tt) ->
  has_nl (float_fixed 3 execution_time) = false ->
  Forall (fun m => has_nl m = false) errors ->
  exists total_str text,
    format_fixed 2 total_cost = Ok total_str /\
    tr = [Print text; WriteFile "SalesResults.txt" text] /\
    (has_nl total_str = false ->
     split_newline text =
     app ["=== Sales Computation Results ==="; "Total Cost: $" ++ total_str;
          "Execution Time: " ++ float_fixed 3 execution_time ++ " seconds"; ""]
       (match errors with
        | [] => ["No errors encountered during execution."]
        | _ :: _ => "Errors encountered during execution:" :: errors
        end)).
Proof.
  intros Hw Htime Herr; unfold write_results in Hw.
  destruct (format_fixed 2 total_cost) as [ts|ex] eqn:Hfmt; cbn [of_res prog_bind] in Hw;
    [|discriminate].
  destruct (write_text _ _); [|discriminate|discriminate].
  injection Hw as <-.
  eexists ts, _; split; [reflexivity|split; [reflexivity|]].
  intros Hts; unfold results_lines.
  assert (H2 : has_nl ("Total Cost: $" ++ ts) = false) by (rewrite has_nl_app, Hts; reflexivity).
  assert (H3 : has_nl ("Execution Time: " ++ float_fixed 3 execution_time ++ " seconds") = false)
    by (rewrite !has_nl_app, Htime; reflexivity).
  assert (H1 : has_nl "=== Sales Computation Results ===" = false) by reflexivity.
  destruct errors as [|e es]; cbn [app].
  - rewrite !concat_nl_cons by discriminate.
    rewrite (split_newline_join _ _ H1), (split_newline_join _ _ H2),
      (split_newline_join _ _ H3).
    reflexivity.
  - rewrite !concat_nl_cons by discriminate.
    rewrite (split_newline_join _ _ H1), (split_newline_join _ _ H2),
      (split_newline_join _ _ H3).
    change (split_newline ((nl ++ "Errors encountered during execution:") ++ nl ++
                           String.concat nl (e :: es)))
      with ("" :: split_newline ("Errors encountered during execution:" ++ nl ++
                                 String.concat nl (e :: es))).
    rewrite (split_newline_join "Errors encountered during execution:" _ eq_refl),
      (split_concat_nl es e Herr).
    reflexivity.
Qed.

(** C2 (amended): with a dict catalogue, [compute_sale_cost] raises past
    its boundary when the sale is not a dict (AttributeError), when its
    items field is null, a bool or a number (TypeError), and when the
    items, once the earlier ones are processed, reach one that is not a
    dict (AttributeError) or a dict with a truthy quantity and a list or
    dict as truthy product (TypeError).  An exception on an item ends
    [compute_sale_cost] without the later items; an exception on a sale
    ends main's loop without the later sales.  For dict sales whose items
    are dicts whose product is not a list or a dict, each item either
    appends at most one advisory error and lets the loop go on, or raises
    OverflowError; and the loop over the sales either raises OverflowError
    or costs every sale and collects all their errors, in order. *)
Theorem malformed_shapes_raise (ckv : list (string * jvalue)) :
  (forall sale, (forall kv, sale <> JObj kv) ->
     compute_sale_cost sale (JObj ckv) = Raise AttributeError) /\
  (forall sale items_v, py_get sale "items" (JList []) = Ok items_v ->
     (items_v = JNull \/ (exists b, items_v = JBool b) \/ (exists z, items_v = JInt z) \/
      (exists f, items_v = JFloat f)) ->
     compute_sale_cost sale (JObj ckv) = Raise TypeError) /\
  (forall sale items_v pre it post st,
     py_get sale "items" (JList []) = Ok items_v ->
     py_iter items_v = Ok (pre ++ it :: post)%list ->
     fold_res (sale_item_step sale (JObj ckv)) (PInt 0, []) pre = Ok st ->
     (forall kv, it <> JObj kv) ->
     compute_sale_cost sale (JObj ckv) = Raise AttributeError) /\
  (forall sale items_v pre ikv post st product quantity,
     py_get sale "items" (JList []) = Ok items_v ->
     py_iter items_v = Ok (pre ++ JObj ikv :: post)%list ->
     fold_res (sale_item_step sale (JObj ckv)) (PInt 0, []) pre = Ok st ->
     py_get (JObj ikv) "product" JNull = Ok product ->
     py_get (JObj ikv) "quantity" (JInt 0) = Ok quantity ->
     truthy product = true -> truthy quantity = true -> hashable product = false ->
     compute_sale_cost sale (JObj ckv) = Raise TypeError) /\
  (forall sale items_v pre it post st e,
     py_get sale "items" (JList []) = Ok items_v ->
     py_iter items_v = Ok (pre ++ it :: post)%list ->
     fold_res (sale_item_step sale (JObj ckv)) (PInt 0, []) pre = Ok st ->
     sale_item_step sale (JObj ckv) st it = Raise e ->
     compute_sale_cost sale (JObj ckv) = Raise e) /\
  (forall pre sale post st e,
     fold_res (sales_step (JObj ckv)) (PInt 0, []) pre = Ok st ->
     compute_sale_cost sale (JObj ckv) = Raise e ->
     sales_loop (JObj ckv) (pre ++ sale :: post)%list = Raise e) /\
  (forall skv item t errors, shaped_item item ->
     sale_item_step (JObj skv) (JObj ckv) (t, errors) item = Raise OverflowError \/
     exists t' extra, (List.length extra <= 1)%nat /\
       sale_item_step (JObj skv) (JObj ckv) (t, errors) item = Ok (t', (errors ++ extra)%list)) /\
  (forall sales, Forall shaped_sale sales ->
     sales_loop (JObj ckv) sales = Raise OverflowError \/
     exists costs t, Forall2 (fun sale c => compute_sale_cost sale (JObj ckv) = Ok c) sales costs /\
       sales_loop (JObj ckv) sales = Ok (t, List.concat (List.map snd costs))).
Proof.
  split; [|split; [|split; [|split; [|split; [|split; [|split]]]]]].
  - intros sale Hns; unfold compute_sale_cost.
    destruct sale; try reflexivity; exfalso; exact (Hns _ eq_refl).
  - intros sale items_v Hi Hshape; unfold compute_sale_cost; rewrite Hi; cbn [res_bind].
    destruct Hshape as [-> | [[b ->] | [[z ->] | [f ->]]]]; reflexivity.
  - intros sale items_v pre it post st Hi Hit Hpre Hns.
    rewrite (compute_sale_cost_split _ _ _ _ _ _ Hi Hit), Hpre; cbn [res_bind].
    destruct st as [t errors]; unfold sale_item_step.
    destruct it; try reflexivity; exfalso; exact (Hns _ eq_refl).
  - intros sale items_v pre ikv post st product quantity Hi Hit Hpre Hp Hq Htp Htq Hh.
    rewrite (compute_sale_cost_split _ _ _ _ _ _ Hi Hit), Hpre; cbn [res_bind].
    destruct st as [t errors]; unfold sale_item_step; rewrite Hp, Hq; cbn [res_bind].
    rewrite Htp, Htq; cbn [negb orb].
    unfold py_contains; rewrite Hh; reflexivity.
  - intros sale items_v pre it post st e Hi Hit Hpre Hst.
    rewrite (compute_sale_cost_split _ _ _ _ _ _ Hi Hit), Hpre; cbn [res_bind].
    rewrite Hst; reflexivity.
  - intros pre sale post st e Hpre Hc.
    unfold sales_loop; rewrite fold_res_app, Hpre; cbn [res_bind fold_res].
    destruct st as [t errors]; unfold sales_step at 1; rewrite Hc; reflexivity.
  - intros skv item t errors Hshaped.
    destruct (sale_item_step (JObj skv) (JObj ckv) (t, errors) item) as [[t' errors']|e] eqn:Hs.
    + right; destruct (sale_item_step_shape _ _ _ _ _ _ _ Hs) as [(m & -> & _) | (-> & _)].
      * exists t', [m]; split; [cbn; lia|reflexivity].
      * exists t', []; split; [cbn; lia|rewrite app_nil_r; reflexivity].
    + left; rewrite (shaped_item_step_exc _ _ _ _ _ _ eq_refl Hshaped Hs); reflexivity.
  - intros sales Hsales; unfold sales_loop.
    enough (Hgen : forall t errors0,
      fold_res (sales_step (JObj ckv)) (t, errors0) sales = Raise OverflowError \/
      exists costs t', Forall2 (fun sale c => compute_sale_cost sale (JObj ckv) = Ok c) sales costs /\
        fold_res (sales_step (JObj ckv)) (t, errors0) sales =
        Ok (t', (errors0 ++ List.concat (List.map snd costs))%list)).
    { destruct (Hgen (PInt 0) []) as [Hr | (costs & t' & Hc & Hr)]; [left; exact Hr|].
      right; exists costs, t'; split; [exact Hc|exact Hr]. }
    induction Hsales as [|sale sales Hsale _ IH]; intros t errors0; cbn [fold_res].
    + right; exists [], t; split; [constructor|rewrite app_nil_r; reflexivity].
    + cbn [sales_step].
      destruct (compute_sale_cost sale (JObj ckv)) as [[sc es]|e] eqn:Hc; cbn [res_bind].
      * destruct (py_add t sc) as [t1|e] eqn:Ha; cbn [res_bind].
        -- destruct (IH t1 (errors0 ++ es)%list) as [Hr | (costs & t' & Hcs & Hr)];
             [left; exact Hr|].
           right; exists ((sc, es) :: costs), t'; split; [constructor; assumption|].
           rewrite Hr; cbn [List.map List.concat snd]; rewrite app_assoc; reflexivity.
        -- left; rewrite (py_add_exc _ _ _ Ha); reflexivity.
      * left; rewrite (shaped_sale_cost_exc _ _ _ Hsale Hc); reflexivity.
Qed.

End Proofs.

Section HeapProofs.

Context {float : Type} `{FloatOps float}.
Context (ref_str : @Heap.heap float -> @Heap.pyval float -> string).
Context (nondict_contains_h :
  @Heap.heap float -> @Heap.pyval float -> @Heap.pyval float -> res bool).
Context (nondict_getitem_h :
  @Heap.heap float -> @Heap.pyval float -> @Heap.pyval float -> res (@Heap.pyval float)).

Lemma frame_refl (n : nat) (w : @Heap.world float) : Heap.frame n w w.
Proof. unfold Heap.frame; repeat split; auto. Qed.

Lemma frame_trans (n : nat) (w1 w2 w3 : @Heap.world float) :
  Heap.frame n w1 w2 -> Heap.frame n w2 w3 -> Heap.frame n w1 w3.
Proof.
  intros (Ho1 & Hf1 & Hn1 & Hh1) (Ho2 & Hf2 & Hn2 & Hh2).
  unfold Heap.frame; repeat split; try congruence; [lia|].
  intros l Hl; rewrite Hh2, Hh1; auto.
Qed.

Lemma pres_same {A} (n : nat) (m : @Heap.M float A) :
  (forall w, snd (m w) = w) -> Heap.preserves n m.
Proof. intros Hm w _; rewrite Hm; apply frame_refl. Qed.

Lemma pres_ret {A} (n : nat) (a : A) : Heap.preserves (float := float) n (Heap.mret a).
Proof. apply pres_same; reflexivity. Qed.

Lemma pres_raise {A} (n : nat) (e : exc) : Heap.preserves (float := float) (A := A) n (Heap.mraise e).
Proof. apply pres_same; reflexivity. Qed.

Lemma pres_of_res {A} (n : nat) (r : res A) : Heap.preserves (float := float) n (Heap.of_res r).
Proof. destruct r; [apply pres_ret|apply pres_raise]. Qed.

Lemma pres_load (n l : nat) : Heap.preserves (float := float) n (Heap.load l).
Proof. apply pres_same; intros w; unfold Heap.load; destruct (Heap.objs w l); reflexivity. Qed.

Lemma pres_read_heap (n : nat) : Heap.preserves (float := float) n Heap.read_heap.
Proof. apply pres_same; reflexivity. Qed.

Lemma pres_bind {A B} (n : nat) (m : @Heap.M float A) (k : A -> Heap.M B) :
  Heap.preserves n m -> (forall a, Heap.preserves n (k a)) -> Heap.preserves n (Heap.mbind m k).
Proof.
  intros Hm Hk w Hn; unfold Heap.mbind.
  pose proof (Hm w Hn) as F1.
  destruct (m w) as [[a|e] w1]; cbn [snd] in F1 |- *; [|exact F1].
  apply (frame_trans _ _ w1); [exact F1|].
  apply Hk; destruct F1 as (_ & _ & Hle & _); lia.
Qed.

Lemma pres_try {A} (n : nat) (m : @Heap.M float A) :
  Heap.preserves n m -> Heap.preserves n (Heap.mtry m).
Proof.
  intros Hm w Hn; unfold Heap.mtry; pose proof (Hm w Hn) as F.
  destruct (m w) as [r w1]; exact F.
Qed.

Lemma pres_alloc (n : nat) (o : @Heap.pyobj float) : Heap.preserves n (Heap.alloc o).
Proof.
  intros w Hn; unfold Heap.alloc, Heap.frame; cbn; repeat split; [lia|].
  intros l Hl; unfold Heap.upd; destruct (Nat.eqb_spec l (Heap.next_loc w)); [lia|reflexivity].
Qed.

Lemma pres_store (n l : nat) (o : @Heap.pyobj float) : n <= l -> Heap.preserves n (Heap.store l o).
Proof.
  intros Hl w Hn; unfold Heap.store, Heap.frame; cbn; repeat split; [lia|].
  intros l' Hl'; unfold Heap.upd; destruct (Nat.eqb_spec l' l); [lia|reflexivity].
Qed.

Lemma pres_fold {A B} (n : nat) (f : A -> B -> @Heap.M float A) (acc : A) (xs : list B) :
  (forall a b, Heap.preserves n (f a b)) -> Heap.preserves n (Heap.mfold f acc xs).
Proof.
  intros Hf; revert acc; induction xs as [|x xs IH]; intros acc; cbn [Heap.mfold].
  - apply pres_ret.
  - apply pres_bind; [apply Hf|intros a; apply IH].
Qed.

Ltac pres :=
  repeat first
    [ apply pres_bind; [|intros ?; cbv beta]
    | apply pres_try
    | apply pres_ret
    | apply pres_raise
    | apply pres_of_res
    | apply pres_load
    | apply pres_read_heap
    | apply pres_alloc
    | match goal with |- Heap.preserves _ (match ?x with _ => _ end) => destruct x end ].

Lemma pres_get (n : nat) (obj : Heap.pyval) (key : string) (d : Heap.pyval) :
  Heap.preserves (float := float) n (Heap.get obj key d).
Proof. unfold Heap.get; pres. Qed.

Lemma pres_truthy (n : nat) (v : Heap.pyval) : Heap.preserves (float := float) n (Heap.truthy v).
Proof. unfold Heap.truthy; pres. Qed.

Lemma pres_iter (n : nat) (v : Heap.pyval) : Heap.preserves (float := float) n (Heap.iter v).
Proof. unfold Heap.iter; pres. Qed.

Lemma pres_str (n : nat) (v : Heap.pyval) : Heap.preserves n (Heap.str ref_str v).
Proof. unfold Heap.str; pres. Qed.

Lemma pres_contains (n : nat) (key cat : Heap.pyval) :
  Heap.preserves n (Heap.contains nondict_contains_h key cat).
Proof. unfold Heap.contains; pres. Qed.

Lemma pres_getitem (n : nat) (cat key : Heap.pyval) :
  Heap.preserves n (Heap.getitem nondict_getitem_h cat key).
Proof. unfold Heap.getitem; pres. Qed.

Lemma pres_append (n l : nat) (v : Heap.pyval) : n <= l -> Heap.preserves (float := float) n (Heap.append l v).
Proof. intros Hl; unfold Heap.append; pres; apply pres_store; exact Hl. Qed.

Lemma pres_item_step (n errors : nat) (sale cat : Heap.pyval) (t : pnum) (item : Heap.pyval) :
  n <= errors ->
  Heap.preserves n
    (Heap.item_step ref_str nondict_contains_h nondict_getitem_h sale cat errors t item).
Proof.
  intros Hl; unfold Heap.item_step.
  repeat first
    [ apply pres_get
    | apply pres_truthy
    | apply pres_str
    | apply pres_contains
    | apply pres_getitem
    | apply pres_append; exact Hl
    | apply pres_bind; [|intros ?; cbv beta]
    | apply pres_try
    | apply pres_ret
    | apply pres_raise
    | apply pres_of_res
    | match goal with |- Heap.preserves _ (match ?x with _ => _ end) => destruct x end ].
Qed.

(** C9: [compute_sale_cost] changes nothing it was given and performs no
    output: standard output and the files are as before, and every heap
    cell that existed before the call (the sale, its items, the catalogue
    and anything else reachable) holds the same object afterwards.  Its
    only writes go to the two lists it allocates itself. *)
Theorem compute_sale_cost_frame (sale cat : Heap.pyval) (w : Heap.world) :
  let w' := snd (Heap.compute_sale_cost ref_str nondict_contains_h nondict_getitem_h sale cat w) in
  Heap.stdout w' = Heap.stdout w /\ Heap.files w' = Heap.files w /\
  (forall l, l < Heap.next_loc w -> Heap.objs w' l = Heap.objs w l).
Proof.
  assert (F : Heap.frame (Heap.next_loc w) w
    (snd (Heap.compute_sale_cost ref_str nondict_contains_h nondict_getitem_h sale cat w))).
  { unfold Heap.compute_sale_cost, Heap.mbind at 1.
    set (w1 := snd (Heap.alloc (Heap.OList []) w)).
    change (Heap.alloc (Heap.OList []) w) with (Ok (Heap.next_loc w), w1).
    apply (frame_trans _ _ w1); [apply pres_alloc; lia|].
    assert (Hn : Heap.next_loc w <= Heap.next_loc w1) by (cbn; lia).
    revert Hn; generalize w1; intros w2 Hn.
    assert (P : Heap.preserves (Heap.next_loc w)
      (Heap.mbind (Heap.alloc (Heap.OList [])) (fun default_items =>
       Heap.mbind (Heap.get sale "items" (Heap.VRef default_items)) (fun items =>
       Heap.mbind (Heap.iter items) (fun its =>
       Heap.mbind (Heap.mfold (Heap.item_step ref_str nondict_contains_h nondict_getitem_h
                                 sale cat (Heap.next_loc w)) (PInt 0) its) (fun total_cost =>
       Heap.mret (total_cost, @Heap.VRef float (Heap.next_loc w)))))))).
    { apply pres_bind; [apply pres_alloc|intros d].
      apply pres_bind; [apply pres_get|intros items].
      apply pres_bind; [apply pres_iter|intros its].
      apply pres_bind; [|intros t; apply pres_ret].
      apply pres_fold; intros a b; apply pres_item_step; lia. }
    exact (P w2 Hn). }
  destruct F as (Ho & Hf & _ & Hh); cbn zeta; split; [exact Ho|split; [exact Hf|exact Hh]].
Qed.

(** ** The list [errors] that compute_sale_cost returns *)

Lemma keeps_same {A} (P : Heap.world -> Prop) (m : @Heap.M float A) :
  (forall w, snd (m w) = w) -> Heap.keeps P m.
Proof. intros Hm w Hw; rewrite Hm; exact Hw. Qed.

Lemma keeps_ret {A} (P : Heap.world -> Prop) (a : A) : Heap.keeps (float := float) P (Heap.mret a).
Proof. apply keeps_same; reflexivity. Qed.

Lemma keeps_raise {A} (P : Heap.world -> Prop) (e : exc) :
  Heap.keeps (float := float) (A := A) P (Heap.mraise e).
Proof. apply keeps_same; reflexivity. Qed.

Lemma keeps_of_res {A} (P : Heap.world -> Prop) (r : res A) :
  Heap.keeps (float := float) P (Heap.of_res r).
Proof. destruct r; [apply keeps_ret|apply keeps_raise]. Qed.

Lemma keeps_load (P : Heap.world -> Prop) (l : nat) : Heap.keeps (float := float) P (Heap.load l).
Proof. apply keeps_same; intros w; unfold Heap.load; destruct (Heap.objs w l); reflexivity. Qed.

Lemma keeps_read_heap (P : Heap.world -> Prop) : Heap.keeps (float := float) P Heap.read_heap.
Proof. apply keeps_same; reflexivity. Qed.

Lemma keeps_bind {A B} (P : Heap.world -> Prop) (m : @Heap.M float A) (k : A -> Heap.M B) :
  Heap.keeps P m -> (forall a, Heap.keeps P (k a)) -> Heap.keeps P (Heap.mbind m k).
Proof.
  intros Hm Hk w Hw; unfold Heap.mbind.
  pose proof (Hm w Hw) as P1.
  destruct (m w) as [[a|e] w1]; cbn [snd] in P1 |- *; [apply Hk|]; exact P1.
Qed.

Lemma keeps_try {A} (P : Heap.world -> Prop) (m : @Heap.M float A) :
  Heap.keeps P m -> Heap.keeps P (Heap.mtry m).
Proof.
  intros Hm w Hw; unfold Heap.mtry; pose proof (Hm w Hw) as P1.
  destruct (m w) as [r w1]; exact P1.
Qed.

Lemma keeps_fold {A B} (P : Heap.world -> Prop) (f : A -> B -> @Heap.M float A) (acc : A)
  (xs : list B) :
  (forall a b, Heap.keeps P (f a b)) -> Heap.keeps P (Heap.mfold f acc xs).
Proof.
  intros Hf; revert acc; induction xs as [|x xs IH]; intros acc; cbn [Heap.mfold].
  - apply keeps_ret.
  - apply keeps_bind; [apply Hf|intros a; apply IH].
Qed.

(** [errors.append(msg)] with a str keeps [errors] a list of strings. *)
Lemma keeps_append_str (l : nat) (s : string) :
  Heap.keeps (float := float) (Heap.str_list_at l) (Heap.append l (Heap.VStr s)).
Proof.
  intros w (xs & Hl & Hxs); unfold Heap.append, Heap.mbind, Heap.load; rewrite Hl.
  cbn [snd]; unfold Heap.store; cbn [snd].
  exists (xs ++ [Heap.VStr s])%list; split.
  - cbn [Heap.objs]; unfold Heap.upd; rewrite Nat.eqb_refl; reflexivity.
  - apply Forall_app; split; [exact Hxs|constructor; [eexists; reflexivity|constructor]].
Qed.

Ltac keeps :=
  repeat first
    [ apply keeps_bind; [|intros ?; cbv beta]
    | apply keeps_try
    | apply keeps_ret
    | apply keeps_raise
    | apply keeps_of_res
    | apply keeps_load
    | apply keeps_read_heap
    | match goal with |- Heap.keeps _ (match ?x with _ => _ end) => destruct x end ].

Lemma keeps_item_step (errors : nat) (sale cat : Heap.pyval) (t : pnum) (item : Heap.pyval) :
  Heap.keeps (Heap.str_list_at errors)
    (Heap.item_step ref_str nondict_contains_h nondict_getitem_h sale cat errors t item).
Proof.
  unfold Heap.item_step, Heap.get, Heap.truthy, Heap.str, Heap.contains, Heap.getitem.
  repeat first
    [ apply keeps_append_str
    | apply keeps_bind; [|intros ?; cbv beta]
    | apply keeps_try
    | apply keeps_ret
    | apply keeps_raise
    | apply keeps_of_res
    | apply keeps_load
    | apply keeps_read_heap
    | match goal with |- Heap.keeps _ (match ?x with _ => _ end) => destruct x end ].
Qed.

Lemma keeps_get (P : Heap.world -> Prop) (obj : Heap.pyval) (key : string) (d : Heap.pyval) :
  Heap.keeps (float := float) P (Heap.get obj key d).
Proof. unfold Heap.get; keeps. Qed.

Lemma keeps_iter (P : Heap.world -> Prop) (v : Heap.pyval) :
  Heap.keeps (float := float) P (Heap.iter v).
Proof. unfold Heap.iter; keeps. Qed.

Lemma mbind_ok {A B} (m : @Heap.M float A) (k : A -> Heap.M B) (w : Heap.world) (b : B) :
  fst (Heap.mbind m k w) = Ok b ->
  exists a, fst (m w) = Ok a /\ Heap.mbind m k w = k a (snd (m w)).
Proof.
  unfold Heap.mbind; destruct (m w) as [[a|e] w1]; cbn [fst snd]; [eauto|discriminate].
Qed.

(** X9: [compute_sale_cost] hands back a new list: the reference it
    returns for [errors] is to the first free heap location at the call
    (so it is none of the objects the caller had), and after the call
    that location holds a list of strings only. *)
Theorem compute_sale_cost_fresh_errors (sale cat : Heap.pyval) (w : Heap.world)
  (t : pnum) (v : Heap.pyval) :
  fst (Heap.compute_sale_cost ref_str nondict_contains_h nondict_getitem_h sale cat w) = Ok (t, v) ->
  v = Heap.VRef (Heap.next_loc w) /\
  Heap.str_list_at (Heap.next_loc w)
    (snd (Heap.compute_sale_cost ref_str nondict_contains_h nondict_getitem_h sale cat w)).
Proof.
  unfold Heap.compute_sale_cost; intros Hc.
  destruct (mbind_ok _ _ _ _ Hc) as (l & Hl & E); rewrite E in Hc |- *; clear E; cbv beta in Hc |- *.
  cbn in Hl; injection Hl as <-.
  set (w1 := snd (Heap.alloc (Heap.OList []) w)) in *.
  assert (P1 : Heap.str_list_at (Heap.next_loc w) w1).
  { exists []; split; [cbn; unfold Heap.upd; rewrite Nat.eqb_refl; reflexivity|constructor]. }
  assert (N1 : Heap.next_loc w1 = S (Heap.next_loc w)) by reflexivity.
  clearbody w1.
  destruct (mbind_ok _ _ _ _ Hc) as (d & Hd & E); rewrite E in Hc |- *; clear E; cbv beta in Hc |- *.
  set (w2 := snd (Heap.alloc (Heap.OList []) w1)) in *.
  assert (P2 : Heap.str_list_at (Heap.next_loc w) w2).
  { destruct P1 as (xs & Hxs & Hf); exists xs; split; [|exact Hf].
    unfold w2; cbn; unfold Heap.upd; rewrite N1.
    destruct (Nat.eqb_spec (Heap.next_loc w) (S (Heap.next_loc w))); [lia|exact Hxs]. }
  clearbody w2.
  destruct (mbind_ok _ _ _ _ Hc) as (items & _ & E); rewrite E in Hc |- *; clear E; cbv beta in Hc |- *.
  pose proof (keeps_get _ sale "items" (Heap.VRef d) w2 P2) as P3.
  revert P3 Hc; generalize (snd (Heap.get sale "items" (Heap.VRef d) w2)) as w3; intros w3 P3 Hc.
  destruct (mbind_ok _ _ _ _ Hc) as (its & _ & E); rewrite E in Hc |- *; clear E; cbv beta in Hc |- *.
  pose proof (keeps_iter _ items w3 P3) as P4.
  revert P4 Hc; generalize (snd (Heap.iter items w3)) as w4; intros w4 P4 Hc.
  destruct (mbind_ok _ _ _ _ Hc) as (total & _ & E); rewrite E in Hc |- *; clear E; cbv beta in Hc |- *.
  pose proof (keeps_fold _ _ (PInt 0) its (keeps_item_step (Heap.next_loc w) sale cat) w4 P4) as P5.
  revert P5 Hc.
  generalize (snd (Heap.mfold (Heap.item_step ref_str nondict_contains_h nondict_getitem_h
                                 sale cat (Heap.next_loc w)) (PInt 0) its w4)) as w5.
  intros w5 P5 Hc; cbn in Hc |- *.
  injection Hc as _ <-; split; [reflexivity|exact P5].
Qed.

End HeapProofs.

(** * Concrete runs: witnesses and counterexamples *)

Import QInst.

Ltac valid_item_tac :=
  unfold valid_item; do 6 eexists;
  split; [reflexivity|]; split; [reflexivity|];
  split; [reflexivity|]; split; [discriminate|];
  split; [reflexivity|]; split; [left; eexists; split; [reflexivity|discriminate]|];
  split; reflexivity.

(** Scenario A meets the hypothesis of [sales_total_valid]: total 9, no error. *)
Lemma sales_total_valid_witness :
  Forall (valid_sale catalogue_A) [sale_A] /\
  sales_loop catalogue_A [sale_A] = res_map (fun t => (t, [])) (spec_total catalogue_A [sale_A]) /\
  spec_total catalogue_A [sale_A] = Ok (PFloat (18 # 2)).
Proof.
  assert (Hv : Forall (valid_sale catalogue_A) [sale_A]).
  { constructor; [|constructor].
    unfold valid_sale; eexists; split; [reflexivity|].
    constructor; [valid_item_tac|constructor; [valid_item_tac|constructor]]. }
  split; [exact Hv|split; [apply (sales_total_valid catalogue_A [sale_A] Hv)|reflexivity]].
Defined.

(** C2 fails: a line item that is not a dict makes [compute_sale_cost]
    raise AttributeError, and the run stops before the next sale. *)
Lemma non_dict_item_raises :
  compute_sale_cost sale_bad_item catalogue_A = Raise AttributeError /\
  sales_loop catalogue_A [sale_bad_item; sale_A] = Raise AttributeError.
Proof. split; reflexivity. Qed.

(** C3 fails as stated: the price of Bread (the int 3) converts to a float,
    yet the string quantity "2" makes [price * quantity] raise TypeError,
    which is reported as an invalid price. *)
Lemma coercible_price_reported_invalid :
  py_float (float := Q) (JInt 3) = Ok (3 # 1) /\
  compute_sale_cost sale_string_quantity catalogue_A =
  Ok (PInt 0, ["Invalid price for product 'Bread' in price catalogue"]).
Proof. split; reflexivity. Qed.

Lemma invalid_price_step_witness :
  (forall e, py_float (float := Q) (JStr "1.50") = Raise e -> caught e = true ->
     sale_item_step sale_string_quantity catalogue_A (PInt 0, [])
       (item "Apple" (JStr "2")) =
     Ok (PInt 0, [msg_invalid_price (JStr "Apple")])) /\
  (forall p e, py_float (float := Q) (JStr "1.50") = Ok p ->
     py_mul_float p (JStr "2") = Raise e -> caught e = true ->
     sale_item_step sale_string_quantity catalogue_A (PInt 0, [])
       (item "Apple" (JStr "2")) =
     Ok (PInt 0, [msg_invalid_price (JStr "Apple")])) /\
  (forall p x, py_float (float := Q) (JStr "1.50") = Ok p -> py_mul_float p (JStr "2") = Ok x ->
     sale_item_step sale_string_quantity catalogue_A (PInt 0, [])
       (item "Apple" (JStr "2")) =
     res_map (fun t' => (t', [])) (py_add (PInt 0) (PFloat x))).
Proof.
  apply (invalid_price_step sale_string_quantity catalogue_A_entries
           [("product", JStr "Apple"); ("quantity", JStr "2")] "Apple" (JStr "2") (JStr "1.50")
           (PInt 0) []); [reflexivity|discriminate|reflexivity|reflexivity|reflexivity].
Defined.

(** The item with no quantity in the id-less sale records the "Unknown"
    error and the next item is still costed. *)
Lemma invalid_item_one_error_witness :
  exists skv, sale_no_quantity = JObj skv /\
  compute_sale_cost sale_no_quantity catalogue_A =
  res_bind (fold_res (sale_item_step sale_no_quantity catalogue_A) (PInt 0, []) [])
    (fun '(t, errors) =>
       fold_res (sale_item_step sale_no_quantity catalogue_A)
         (t, (errors ++ [msg_invalid_item
                           (match dict_get skv "id" with Some v => v | None => JStr "Unknown" end)])%list)
         [item "Bread" (JInt 2)]).
Proof.
  apply (invalid_item_one_error sale_no_quantity catalogue_A
           (JList [JObj [("product", JStr "Apple")]; item "Bread" (JInt 2)]) []
           [item "Bread" (JInt 2)] [("product", JStr "Apple")] (JStr "Apple") (JInt 0));
    [reflexivity|reflexivity|reflexivity|reflexivity|right; reflexivity].
Defined.

Lemma unknown_product_one_error_witness :
  compute_sale_cost sale_milk_twice catalogue_A =
  res_bind (fold_res (sale_item_step sale_milk_twice catalogue_A) (PInt 0, []) [])
    (fun '(t, errors) =>
       fold_res (sale_item_step sale_milk_twice catalogue_A)
         (t, (errors ++ [msg_not_found (JStr "Milk")])%list) [item "Milk" (JInt 2)]).
Proof.
  apply (unknown_product_one_error sale_milk_twice
           (JList [item "Milk" (JInt 2); item "Milk" (JInt 2)]) catalogue_A_entries []
           [item "Milk" (JInt 2)] [("product", JStr "Milk"); ("quantity", JInt 2)]
           (JStr "Milk") (JInt 2));
    try reflexivity.
  intros s [= <-]; reflexivity.
Defined.

(** Two equal messages from two items both stay, in order. *)
Lemma errors_in_encounter_order_witness :
  sales_loop catalogue_A [sale_A; sale_milk_twice] =
  Ok (PFloat (18 # 2), ["Product 'Milk' not found in price catalogue";
                        "Product 'Milk' not found in price catalogue"]) /\
  exists per_sale,
    ["Product 'Milk' not found in price catalogue";
     "Product 'Milk' not found in price catalogue"] = List.concat per_sale /\
    Forall2 (fun sale e =>
      (exists tc, compute_sale_cost sale catalogue_A = Ok (tc, e)) /\
      exists items_v items ms,
        py_get sale "items" (JList []) = Ok items_v /\ py_iter items_v = Ok items /\
        e = List.concat ms /\
        Forall2 (fun it m => exists ta tb,
                   sale_item_step sale catalogue_A (ta, []) it = Ok (tb, m)) items ms)
      [sale_A; sale_milk_twice] per_sale.
Proof.
  split; [reflexivity|].
  apply (errors_in_encounter_order catalogue_A [sale_A; sale_milk_twice] (PFloat (18 # 2))).
  reflexivity.
Defined.

(** Scenario D: a sales record given as a mapping. *)
Lemma sales_not_list_fatal_witness :
  @main Q _ (PyEnv_files (files_run sale_A)) argv_run 0%Q 1%Q =
  ([Print "Error: Sales record must be a list of sales"], Exit 1%Z).
Proof.
  apply (@sales_not_list_fatal Q _ (PyEnv_files (files_run sale_A)) argv_run 0%Q 1%Q
           catalogue_A sale_A); try reflexivity.
  intros sales; discriminate.
Defined.

Lemma report_layout_witness :
  exists cat sales total errors total_str,
    @read_json Q (PyEnv_files (files_run (JList [sale_A; sale_milk_twice]))) (nth 1 argv_run "")
      = Loaded cat /\
    @read_json Q (PyEnv_files (files_run (JList [sale_A; sale_milk_twice]))) (nth 2 argv_run "")
      = Loaded (JList sales) /\
    sales_loop cat sales = Ok (total, errors) /\
    format_fixed 2 total = Ok total_str /\
    let report :=
      app ["=== Sales Computation Results ===";
           "Total Cost: $" ++ total_str;
           "Execution Time: " ++ float_fixed 3 (fsub 1%Q 0%Q) ++ " seconds"]
        (match errors with
         | [] => [nl ++ "No errors encountered during execution."]
         | _ :: _ => (nl ++ "Errors encountered during execution:") :: errors
         end) in
    fst (@main Q _ (PyEnv_files (files_run (JList [sale_A; sale_milk_twice]))) argv_run 0%Q 1%Q) =
    app (List.map CostCall sales)
      [Print (String.concat nl report); WriteFile "SalesResults.txt" (String.concat nl report)].
Proof.
  apply (@report_layout Q _ (PyEnv_files (files_run (JList [sale_A; sale_milk_twice])))
           argv_run 0%Q 1%Q).
  reflexivity.
Defined.

(** A quantity of -2 Apples at 1.50 adds -3 to the total, with no error. *)
Lemma negative_quantity_accepted_witness :
  sale_item_step sale_A catalogue_A (PInt 0, []) (item "Apple" (JInt (-2))) =
  Ok (PFloat (-6 # 2), []) /\ (-6 # 2 < 0)%Q.
Proof.
  destruct (negative_quantity_accepted sale_A catalogue_A_entries
              [("product", JStr "Apple"); ("quantity", JInt (-2))] "Apple" (JInt (-2))
              (JStr "1.50") (3 # 2) (PInt 0) [])
    as [Hz _]; [reflexivity|discriminate|reflexivity|reflexivity|reflexivity|].
  split; [|reflexivity].
  unfold catalogue_A, item; rewrite (Hz (-2)%Z (inject_Z (-2)) eq_refl); [reflexivity|lia|reflexivity].
Defined.

(** A sales record given as a mapping: status 1 after one printed line. *)
Lemma main_exit_status_one_witness :
  @main Q _ (PyEnv_files (files_run sale_A)) argv_run 0%Q 1%Q =
  ([Print "Error: Sales record must be a list of sales"], Exit 1%Z) /\
  (1%Z = 1%Z /\ exists msg, [Print "Error: Sales record must be a list of sales"] = [@Print Q msg]).
Proof.
  assert (Hm : @main Q _ (PyEnv_files (files_run sale_A)) argv_run 0%Q 1%Q =
               ([Print "Error: Sales record must be a list of sales"], Exit 1%Z))
    by reflexivity.
  split; [exact Hm|].
  exact (@main_exit_status_one Q _ (PyEnv_files (files_run sale_A)) argv_run 0%Q 1%Q
           [Print "Error: Sales record must be a list of sales"] 1%Z Hm).
Defined.

Lemma dict_catalogue_exceptions_witness :
  sales_loop catalogue_A [sale_bad_item] = Raise AttributeError /\
  (AttributeError = AttributeError \/ AttributeError = TypeError \/
   AttributeError = OverflowError).
Proof.
  assert (Hs : sales_loop catalogue_A [sale_bad_item] = Raise AttributeError) by reflexivity.
  split; [exact Hs|].
  exact (proj2 (dict_catalogue_exceptions catalogue_A_entries) [sale_bad_item] AttributeError Hs).
Defined.

(** One of two line items is invalid: one error, and a float total. *)
Lemma sale_cost_error_count_witness :
  sale_item_step sale_no_quantity catalogue_A (PInt 0, []) (JObj [("product", JStr "Apple")]) =
    Ok (PInt 0, ["Invalid item in sale Unknown: Missing product name or quantity"]) /\
  ((exists m, ["Invalid item in sale Unknown: Missing product name or quantity"] = ([] ++ [m])%list /\
      @PInt Q 0 = PInt 0) \/
   ([ "Invalid item in sale Unknown: Missing product name or quantity"] = [] /\
      exists f, @PInt Q 0 = PFloat f)) /\
  compute_sale_cost sale_no_quantity catalogue_A =
  Ok (PFloat 6%Q, ["Invalid item in sale Unknown: Missing product name or quantity"]) /\
  exists items_v its,
    py_get sale_no_quantity "items" (JList []) = Ok items_v /\ py_iter items_v = Ok its /\
    ((List.length ["Invalid item in sale Unknown: Missing product name or quantity"] =
      List.length its /\ PFloat 6%Q = PInt 0%Z) \/
     ((List.length ["Invalid item in sale Unknown: Missing product name or quantity"] <
       List.length its)%nat /\ exists f, PFloat 6%Q = PFloat f)).
Proof.
  assert (Hs : sale_item_step sale_no_quantity catalogue_A (PInt 0, [])
                 (JObj [("product", JStr "Apple")]) =
    Ok (PInt 0, ["Invalid item in sale Unknown: Missing product name or quantity"]))
    by reflexivity.
  assert (Hc : compute_sale_cost sale_no_quantity catalogue_A =
    Ok (PFloat 6%Q, ["Invalid item in sale Unknown: Missing product name or quantity"]))
    by reflexivity.
  split; [exact Hs|split; [exact (proj1 (sale_cost_error_count sale_no_quantity catalogue_A) _ _ _ _ _ Hs)|]].
  split; [exact Hc|].
  exact (proj2 (sale_cost_error_count sale_no_quantity catalogue_A) _ _ Hc).
Defined.

(** A line item that is not a dict stops the sale and the run; sales of
    the expected shape are all costed and their errors collected. *)
Lemma malformed_shapes_raise_witness :
  compute_sale_cost sale_bad_item catalogue_A = Raise AttributeError /\
  sales_loop catalogue_A [sale_A; sale_bad_item; sale_milk_twice] = Raise AttributeError /\
  (sales_loop catalogue_A [sale_A; sale_milk_twice; sale_no_quantity] = Raise OverflowError \/
   exists costs t,
     Forall2 (fun sale c => compute_sale_cost sale catalogue_A = Ok c)
       [sale_A; sale_milk_twice; sale_no_quantity] costs /\
     sales_loop catalogue_A [sale_A; sale_milk_twice; sale_no_quantity] =
     Ok (t, List.concat (List.map snd costs))).
Proof.
  destruct (malformed_shapes_raise catalogue_A_entries)
    as (_ & _ & P3 & _ & _ & P6 & _ & P8).
  assert (Hbad : compute_sale_cost sale_bad_item catalogue_A = Raise AttributeError).
  { apply (P3 sale_bad_item (JList [item "Apple" (JInt 1); JInt 5])
             [item "Apple" (JInt 1)] (JInt 5) [] (PFloat (3 # 2), []));
      [reflexivity|reflexivity|reflexivity|intros kv; discriminate]. }
  split; [exact Hbad|split].
  - apply (P6 [sale_A] sale_bad_item [sale_milk_twice] (PFloat (18 # 2), []));
      [reflexivity|exact Hbad].
  - apply P8.
    repeat constructor; unfold shaped_sale; eexists; (split; [reflexivity|]);
      repeat constructor; unfold shaped_item; eexists; (split; [reflexivity|reflexivity]).
Defined.

(** A sale whose items field is null raises TypeError. *)
Lemma sale_items_edge_cases_witness :
  compute_sale_cost (JObj [("id", JStr "S5"); ("items", JNull)]) catalogue_A = Raise TypeError.
Proof.
  destruct (sale_items_edge_cases catalogue_A) as (_ & _ & H3 & _).
  apply (H3 [("id", JStr "S5"); ("items", JNull)] JNull); [reflexivity|exact I].
Defined.

Lemma write_results_lines_witness :
  exists total_str text,
    format_fixed 2 (PFloat (18 # 2)) = Ok total_str /\
    fst (write_results (PFloat (18 # 2)) (1 # 1) ["Product 'Milk' not found in price catalogue"]) =
      [Print text; WriteFile "SalesResults.txt" text] /\
    (has_nl total_str = false ->
     split_newline text =
     app ["=== Sales Computation Results ==="; "Total Cost: $" ++ total_str;
          "Execution Time: " ++ float_fixed 3 (1 # 1) ++ " seconds"; ""]
       ["Errors encountered during execution:"; "Product 'Milk' not found in price catalogue"]).
Proof.
  apply (write_results_lines (PFloat (18 # 2)) (1 # 1)
           ["Product 'Milk' not found in price catalogue"]
           (fst (write_results (PFloat (18 # 2)) (1 # 1)
                   ["Product 'Milk' not found in price catalogue"])));
    [reflexivity|reflexivity|repeat constructor].
Defined.

Lemma run_errors_reported_witness :
  sales_loop catalogue_A [sale_A; sale_milk_twice] =
  Ok (PFloat (18 # 2), ["Product 'Milk' not found in price catalogue";
                        "Product 'Milk' not found in price catalogue"]) /\
  Forall reported_error ["Product 'Milk' not found in price catalogue";
                         "Product 'Milk' not found in price catalogue"].
Proof.
  assert (Hs : sales_loop catalogue_A [sale_A; sale_milk_twice] =
    Ok (PFloat (18 # 2), ["Product 'Milk' not found in price catalogue";
                          "Product 'Milk' not found in price catalogue"])) by reflexivity.
  split; [exact Hs|].
  exact (run_errors_reported catalogue_A [sale_A; sale_milk_twice] _ _ Hs).
Defined.

(** The heap sale: the errors list comes back at location 5, the first
    free one, holding the one message. *)
Lemma compute_sale_cost_fresh_errors_witness :
  fst (Heap.compute_sale_cost ref_str_Q nondict_contains_Q nondict_getitem_Q
         (Heap.VRef 0) (Heap.VRef 4) world_A) = Ok (PFloat (12 # 2), Heap.VRef 5) /\
  @Heap.VRef Q 5 = Heap.VRef (Heap.next_loc world_A) /\
  Heap.str_list_at (Heap.next_loc world_A)
    (snd (Heap.compute_sale_cost ref_str_Q nondict_contains_Q nondict_getitem_Q
            (Heap.VRef 0) (Heap.VRef 4) world_A)).
Proof.
  assert (Hc : fst (Heap.compute_sale_cost ref_str_Q nondict_contains_Q nondict_getitem_Q
                      (Heap.VRef 0) (Heap.VRef 4) world_A) = Ok (PFloat (12 # 2), Heap.VRef 5))
    by reflexivity.
  split; [exact Hc|].
  exact (compute_sale_cost_fresh_errors ref_str_Q nondict_contains_Q nondict_getitem_Q
           (Heap.VRef 0) (Heap.VRef 4) world_A _ _ Hc).
Defined.
